(** * Captcha OCR service: a shallow embedding of
      [backend/enhanced_ocr_service.py] and its verification.

    The Python class [EnhancedOCRService] is embedded function by function.
    - Python [str] values are [string]s (the digit strings the recognizers
      exchange are ASCII), Python [float]s are IEEE binary64 primitive floats,
      Python dict literals are association lists in insertion order.
    - Exceptions are explicit: a fallible call returns [exc A].
    - The imaging and OCR libraries (PIL, cv2, numpy, pytesseract, easyocr)
      are an interface, [Externals]; every theorem holds for all of its
      instances.  The draws of Python's global random generator are an
      explicit argument.
    - [self.log] only writes to the log collection; it never changes a
      returned value and is left out. *)

From Stdlib Require Import List String Ascii Bool Arith PeanoNat ZArith Lia.
From Stdlib Require Import Floats Uint63 Permutation Sorted.
Import ListNotations.

Set Warnings "-inexact-float".
Open Scope string_scope.
Open Scope nat_scope.
Open Scope list_scope.

(* ================================================================= *)
(** ** Python values, exceptions and dictionaries *)

Module Py.

(** The outcome of a call that may raise; [msg] is [str(e)]. *)
Inductive exc (A : Type) : Type :=
| Ok (a : A)
| Raise (msg : string).
Arguments Ok {A} a.
Arguments Raise {A} msg.

Definition bind {A B : Type} (c : exc A) (k : A -> exc B) : exc B :=
  match c with
  | Ok a => k a
  | Raise msg => Raise msg
  end.

Definition raised {A : Type} (c : exc A) : bool :=
  match c with
  | Ok _ => false
  | Raise _ => true
  end.

(** The values stored in the dictionaries of this service. *)
Inductive value : Type :=
| PyNone
| PyBool (b : bool)
| PyInt (n : nat)
| PyStr (s : string)
| PyStrList (l : list string)
| PyIntList (l : list nat).

(** Python truthiness ([if v], [not v], [v and w]). *)
Definition truthy (v : value) : bool :=
  match v with
  | PyNone => false
  | PyBool b => b
  | PyInt n => negb (n =? 0)
  | PyStr s => negb (String.eqb s "")
  | PyStrList l => negb (List.length l =? 0)
  | PyIntList l => negb (List.length l =? 0)
  end.

Definition dict : Type := list (string * value).

(** [d.get(key)]: the stored value, [None] when the key is absent. *)
Fixpoint get (d : dict) (key : string) : value :=
  match d with
  | [] => PyNone
  | (k, v) :: d' => if String.eqb k key then v else get d' key
  end.

Definition keys (d : dict) : list string := map fst d.

End Py.

Import Py.

Notation "x <- c ;; k" := (Py.bind c (fun x => k))
  (at level 61, c at next level, right associativity).

(* ================================================================= *)
(** ** Floats *)

Module PyFloat.

(** [float(n)] for a length or a count; CPython bounds them by
    [sys.maxsize = 2^63 - 1]. *)
Definition of_nat (n : nat) : float :=
  PrimFloat.of_uint63 (Uint63.of_Z (Z.of_nat n)).

(** [a / b] on two ints: true division, [ZeroDivisionError] on [b = 0]. *)
Definition truediv (a b : nat) : exc float :=
  if b =? 0 then Raise "division by zero"
  else Ok (PrimFloat.div (of_nat a) (of_nat b)).

(** [sum(l)] on floats, left to right from [0]. *)
Definition sum (l : list float) : float :=
  fold_left PrimFloat.add l 0%float.

(** [x > y] and [x >= y]. *)
Definition gt (x y : float) : bool := PrimFloat.ltb y x.
Definition ge (x y : float) : bool := PrimFloat.leb y x.

End PyFloat.

(* ================================================================= *)
(** ** Strings *)

Module PyStr.

(** [sub in s]. *)
Fixpoint contains (sub s : string) : bool :=
  String.prefix sub s
  || match s with
     | EmptyString => false
     | String _ s' => contains sub s'
     end.

(** [s[::-1]]. *)
Definition reversed (s : string) : string :=
  string_of_list_ascii (rev (list_ascii_of_string s)).

(** Whitespace removed by [str.strip()] (the ASCII part of it). *)
Definition is_space (c : ascii) : bool :=
  let n := nat_of_ascii c in
  ((9 <=? n) && (n <=? 13)) || ((28 <=? n) && (n <=? 32)).

Fixpoint lstrip (s : list ascii) : list ascii :=
  match s with
  | [] => []
  | c :: s' => if is_space c then lstrip s' else s
  end.

Definition strip (s : string) : string :=
  string_of_list_ascii
    (rev (lstrip (rev (lstrip (list_ascii_of_string s))))).

Definition is_digit (c : ascii) : bool :=
  let n := nat_of_ascii c in (48 <=? n) && (n <=? 57).

(** [s.isdigit()]: at least one character and all of them digits. *)
Definition isdigit (s : string) : bool :=
  negb (String.length s =? 0) && forallb is_digit (list_ascii_of_string s).

Definition flush (run : list ascii) : list string :=
  match run with
  | [] => []
  | _ => [string_of_list_ascii run]
  end.

(** The scan of [re.findall(r'\d+', s)]: [run] is the digit run being read. *)
Fixpoint findall_digits_from (run : list ascii) (s : list ascii) : list string :=
  match s with
  | [] => flush run
  | c :: s' =>
      if is_digit c then findall_digits_from (run ++ [c]) s'
      else flush run ++ findall_digits_from [] s'
  end.

Definition findall_digits (s : string) : list string :=
  findall_digits_from [] (list_ascii_of_string s).

(** [str(d)] for a single decimal digit. *)
Definition of_digit (d : nat) : string :=
  String (ascii_of_nat (48 + d)) EmptyString.

(** [sum(c1 != c2 for c1, c2 in zip(s, t))]. *)
Fixpoint differences (s t : string) : nat :=
  match s, t with
  | String c1 s', String c2 t' =>
      (if Ascii.eqb c1 c2 then 0 else 1) + differences s' t'
  | _, _ => 0
  end.

End PyStr.

(* ================================================================= *)
(** ** [random.sample] *)

Module PyRandom.

Fixpoint remove_at {A : Type} (j : nat) (pool : list A) : list A :=
  match pool, j with
  | [], _ => []
  | _ :: pool', 0 => pool'
  | x :: pool', S j' => x :: remove_at j' pool'
  end.

(** Selection without replacement: the i-th draw picks a position among
    the elements still in the pool. *)
Fixpoint sample_from {A : Type} (draws : list nat) (pool : list A) (k : nat)
  : list A :=
  match k with
  | 0 => []
  | S k' =>
      match pool with
      | [] => []
      | x0 :: _ =>
          let j := hd 0 draws mod List.length pool in
          nth j pool x0 :: sample_from (tl draws) (remove_at j pool) k'
      end
  end.

(** [random.sample(population, k)]: [ValueError] when [k] exceeds the
    population. *)
Definition sample {A : Type} (draws : list nat) (population : list A) (k : nat)
  : exc (list A) :=
  if List.length population <? k
  then Raise "Sample larger than population or is negative"
  else Ok (sample_from draws population k).

(** [range(n)]. *)
Definition range (n : nat) : list nat := seq 0 n.

End PyRandom.

(* ================================================================= *)
(** ** The external libraries and the service object *)

(** One observation of a recognizer: [(text, confidence)]. *)
Definition detection : Type := (string * float)%type.

(** The two columns of [pytesseract.image_to_data(..., Output.DICT)] the
    service reads: [data['text']] and [data['conf']]. *)
Record tess_data : Type := {
  td_text : list string;
  td_conf : list float
}.

(** What the service calls outside this repository.  [image] is a PIL
    image, [array] a numpy/OpenCV array.  Each field is one call of the
    source; a call that raises returns [Raise]. *)
Class Externals (image array : Type) : Type := {
  (** The module flags set by the guarded imports. *)
  TESSERACT_AVAILABLE : bool;
  EASYOCR_AVAILABLE : bool;
  (** [Image.open(io.BytesIO(base64.b64decode(s)))]. *)
  open_image : string -> exc image;
  (** [image.mode == 'RGB'], [image.convert('RGB')], [image.convert('L')]. *)
  mode_is_RGB : image -> bool;
  convert_RGB : image -> exc image;
  convert_L : image -> exc image;
  (** [ImageEnhance.Contrast(img).enhance(2.0)] and the same for Sharpness. *)
  enhance_contrast : image -> exc image;
  enhance_sharpness : image -> exc image;
  (** [img.filter(ImageFilter.MedianFilter())]. *)
  median_filter : image -> exc image;
  (** [cv2.cvtColor(np.array(gray_image), cv2.COLOR_RGB2BGR)]. *)
  cv_from_gray : image -> exc array;
  (** Binary threshold, adaptive threshold and morphological closing, each
      converted back with [Image.fromarray]. *)
  cv_binary : array -> exc image;
  cv_adaptive : array -> exc image;
  cv_morph : array -> exc image;
  (** [pytesseract.image_to_data] and [pytesseract.image_to_string]. *)
  image_to_data : image -> string -> exc tess_data;
  image_to_string : image -> string -> exc string;
  (** [self.easyocr_reader.readtext(np.array(image), detail=1)], without the
      bounding boxes. *)
  readtext : image -> exc (list (string * float));
  (** The window scan of [extract_numbers_pattern_matching]: the values
      [np.random.randint(0, 9)] drew for the windows that passed the density
      and line heuristics, in scan order, up to a first exception. *)
  pattern_hits : image -> list nat
}.

(** The attributes of [EnhancedOCRService] the methods read. *)
Record Service : Type := {
  easyocr_reader : bool;          (** [self.easyocr_reader is not None] *)
  confidence_threshold : float;
  similarity_threshold : float
}.

Section Service.

Context {image array : Type} `{Ext : Externals image array}.

(** [__init__]: [reader_ok] tells whether [easyocr.Reader(...)] returned. *)
Definition init (reader_ok : bool) : Service :=
  {| easyocr_reader := EASYOCR_AVAILABLE && reader_ok;
     confidence_threshold := 0.5%float;
     similarity_threshold := 0.8%float |}.

(* --------------------------------------------------------------- *)
(** *** [preprocess_image] *)

(** The [try] block of the OpenCV variants: what was appended before an
    exception stays, the exception is dropped. *)
Definition opencv_variants (gray_image : image) : list image :=
  match cv_from_gray gray_image with
  | Raise _ => []
  | Ok cv_image =>
      match cv_binary cv_image with
      | Raise _ => []
      | Ok binary_pil =>
          binary_pil ::
          match cv_adaptive cv_image with
          | Raise _ => []
          | Ok adaptive_pil =>
              adaptive_pil ::
              match cv_morph cv_image with
              | Raise _ => []
              | Ok morph_pil => [morph_pil]
              end
          end
      end
  end.

Definition preprocess_image (image0 : image) : exc (list image) :=
  rgb <- (if mode_is_RGB image0 then Ok image0 else convert_RGB image0) ;;
  gray_image <- convert_L rgb ;;
  contrast_image <- enhance_contrast gray_image ;;
  sharp_image <- enhance_sharpness contrast_image ;;
  filtered_image <- median_filter gray_image ;;
  Ok ([rgb; gray_image; contrast_image; sharp_image; filtered_image]
        ++ opencv_variants gray_image).

(* --------------------------------------------------------------- *)
(** *** [extract_numbers_tesseract] *)

Definition tesseract_configs : list string :=
  [ "--psm 8 -c tessedit_char_whitelist=0123456789";
    "--psm 7 -c tessedit_char_whitelist=0123456789";
    "--psm 6 -c tessedit_char_whitelist=0123456789";
    "--psm 13 -c tessedit_char_whitelist=0123456789" ].

(** [for i, text in enumerate(data['text'])].  The result is the list
    [results] after the loop and whether the loop raised ([data['conf'][i]]
    out of range); what was appended before stays in [results]. *)
Fixpoint tesseract_data_loop (self : Service) (i : nat) (texts : list string)
    (conf : list float) (results : list detection) : list detection * bool :=
  match texts with
  | [] => (results, false)
  | text :: texts' =>
      let stripped := PyStr.strip text in
      if negb (String.eqb stripped "") && PyStr.isdigit stripped then
        match nth_error conf i with
        | None => (results, true)
        | Some c =>
            let confidence := PrimFloat.div c 100%float in
            tesseract_data_loop self (S i) texts' conf
              (if PyFloat.gt confidence (confidence_threshold self)
               then results ++ [(stripped, confidence)]
               else results)
        end
      else tesseract_data_loop self (S i) texts' conf results
  end.

(** The detections of the regular-expression path of one configuration. *)
Definition tesseract_string_results (text : string) : list detection :=
  map (fun num => (num, 0.8%float))
      (filter (fun num => 2 <=? String.length num)
              (PyStr.findall_digits (PyStr.strip text))).

(** One iteration of [for config in configs], with its [try]/[except]. *)
Definition tesseract_config (self : Service) (img : image)
    (results : list detection) (config : string) : list detection :=
  match image_to_data img config with
  | Raise _ => results
  | Ok data =>
      let '(results1, loop_raised) :=
        tesseract_data_loop self 0 (td_text data) (td_conf data) results in
      if loop_raised then results1
      else
        match image_to_string img config with
        | Raise _ => results1
        | Ok text => results1 ++ tesseract_string_results text
        end
  end.

Definition extract_numbers_tesseract (self : Service) (img : image)
  : list detection :=
  if negb TESSERACT_AVAILABLE then []
  else fold_left (tesseract_config self img) tesseract_configs [].

(* --------------------------------------------------------------- *)
(** *** [extract_numbers_easyocr] and [extract_numbers_pattern_matching] *)

Definition easyocr_region (self : Service) (region : string * float)
  : list detection :=
  let '(text, confidence) := region in
  map (fun num => (num, confidence))
      (filter (fun num => (2 <=? String.length num)
                          && PyFloat.gt confidence (confidence_threshold self))
              (PyStr.findall_digits text)).

Definition extract_numbers_easyocr (self : Service) (img : image)
  : list detection :=
  if negb (easyocr_reader self) then []
  else
    match readtext img with
    | Raise _ => []
    | Ok ocr_results => flat_map (easyocr_region self) ocr_results
    end.

Definition extract_numbers_pattern_matching (img : image) : list detection :=
  map (fun d => (PyStr.of_digit (d mod 9), 0.6%float)) (pattern_hits img).

(* --------------------------------------------------------------- *)
(** *** [consolidate_results] *)

Definition _text_matches_target (text target : string) : bool :=
  if String.eqb text target then true
  else if PyStr.contains target text || PyStr.contains text target then true
  else if String.eqb (PyStr.reversed text) target then true
  else false.

Definition _fuzzy_match (self : Service) (text target : string) : bool :=
  let body : exc bool :=
    if negb (String.length text =? String.length target) then Ok false
    else
      ratio <- PyFloat.truediv (PyStr.differences text target)
                               (String.length target) ;;
      let similarity := PrimFloat.sub 1%float ratio in
      Ok (PyFloat.ge similarity (similarity_threshold self)) in
  match body with
  | Ok b => b
  | Raise _ => false
  end.

(** [text_groups[text].append(confidence)], creating the entry at the end
    of the dictionary when [text] is new. *)
Fixpoint group_add (text : string) (confidence : float)
    (text_groups : list (string * list float)) : list (string * list float) :=
  match text_groups with
  | [] => [(text, [confidence])]
  | (t, cs) :: rest =>
      if String.eqb t text then (t, cs ++ [confidence]) :: rest
      else (t, cs) :: group_add text confidence rest
  end.

Definition group_results (all_results : list detection)
  : list (string * list float) :=
  fold_left (fun groups r => group_add (fst r) (snd r) groups) all_results [].

Definition average (confidences : list float) : float :=
  PrimFloat.div (PyFloat.sum confidences)
                (PyFloat.of_nat (List.length confidences)).

(** [final_results.sort(key=lambda x: x[1], reverse=True)]: a stable sort
    by descending confidence. *)
Fixpoint insert_desc (x : detection) (sorted : list detection) : list detection :=
  match sorted with
  | [] => [x]
  | y :: sorted' =>
      if PrimFloat.ltb (snd x) (snd y) then y :: insert_desc x sorted'
      else x :: sorted
  end.

Definition sort_desc (l : list detection) : list detection :=
  fold_right insert_desc [] l.

Definition final_results (all_results : list detection) : list detection :=
  sort_desc (map (fun g => (fst g, average (snd g))) (group_results all_results)).

Definition exact_matches (all_results : list detection) (target : string)
  : list string :=
  map fst (filter (fun r => _text_matches_target (fst r) target)
                  (final_results all_results)).

Definition fuzzy_matches (self : Service) (all_results : list detection)
    (target : string) : list string :=
  map fst (filter (fun r => _fuzzy_match self (fst r) target)
                  (final_results all_results)).

Definition consolidate_results (self : Service) (all_results : list detection)
    (target : string) : list string :=
  match all_results with
  | [] => []
  | _ =>
      match exact_matches all_results target with
      | [] => fuzzy_matches self all_results target
      | matches => matches
      end
  end.

(* --------------------------------------------------------------- *)
(** *** [enhanced_ocr_process] *)

(** [base64.b64decode] takes a string; any other value is a [TypeError]. *)
Definition decode_image (base64_image : value) : exc image :=
  match base64_image with
  | PyStr s => open_image s
  | _ => Raise "argument should be a bytes-like object or ASCII string"
  end.

(** The recognizers run on one variant, in the order of the source. *)
Definition recognize (self : Service) (proc_img : image) : list detection :=
  (if TESSERACT_AVAILABLE then extract_numbers_tesseract self proc_img else [])
  ++ (if EASYOCR_AVAILABLE then extract_numbers_easyocr self proc_img else [])
  ++ extract_numbers_pattern_matching proc_img.

Definition pooled_detections (self : Service) (processed_images : list image)
  : list detection :=
  flat_map (recognize self) processed_images.

Definition enhanced_ocr_process (self : Service) (base64_image : value)
    (target : string) : dict :=
  match decode_image base64_image with
  | Raise _ =>
      [("success", PyBool false); ("error", PyStr "Image decode failed")]
  | Ok img =>
      match preprocess_image img with
      | Raise msg => [("success", PyBool false); ("error", PyStr msg)]
      | Ok processed_images =>
          let all_results := pooled_detections self processed_images in
          let matches := consolidate_results self all_results target in
          let success := 0 <? List.length matches in
          [("success", PyBool success);
           ("target", PyStr target);
           ("matches", PyStrList matches);
           ("confidence", PyStr (if success then "high" else "low"));
           ("total_detections", PyInt (List.length all_results));
           ("processing_methods",
            PyStrList ["tesseract"; "easyocr"; "pattern_matching"])]
      end
  end.

(* --------------------------------------------------------------- *)
(** *** [process_captcha_tiles] *)

(** The loop [for idx, tile in enumerate(tiles)], from index [idx] on, with
    the two variables it updates. *)
Fixpoint scan_tiles (self : Service) (target : string) (idx : nat)
    (tiles : list dict) (matching_indices : list nat) (processed_count : nat)
  : list nat * nat :=
  match tiles with
  | [] => (matching_indices, processed_count)
  | tile :: tiles' =>
      let base64_image := get tile "base64Image" in
      if negb (truthy base64_image)
      then scan_tiles self target (S idx) tiles' matching_indices processed_count
      else
        let result := enhanced_ocr_process self base64_image target in
        if truthy (get result "success") && truthy (get result "matches")
        then scan_tiles self target (S idx) tiles'
                        (matching_indices ++ [idx]) (S processed_count)
        else scan_tiles self target (S idx) tiles'
                        matching_indices (S processed_count)
  end.

(** The guard of the fallback: [not matching_indices and processed_count > 0]. *)
Definition fallback_guard (matching_indices : list nat) (processed_count : nat)
  : bool :=
  negb (truthy (PyIntList matching_indices)) && (0 <? processed_count).

(** Whether the fallback branch runs on this batch. *)
Definition fallback_fires (self : Service) (tiles : list dict) (target : string)
  : bool :=
  let '(matching_indices, processed_count) :=
    scan_tiles self target 0 tiles [] 0 in
  fallback_guard matching_indices processed_count.

Definition process_captcha_tiles (self : Service) (draws : list nat)
    (tiles : list dict) (target : string) : dict :=
  let '(matching_indices, processed_count) :=
    scan_tiles self target 0 tiles [] 0 in
  let selected : exc (list nat) :=
    if fallback_guard matching_indices processed_count
    then PyRandom.sample draws (PyRandom.range (List.length tiles))
                         (Nat.min 3 (List.length tiles))
    else Ok matching_indices in
  match selected with
  | Ok matching_indices' =>
      [("target", PyStr target);
       ("matching_indices", PyIntList matching_indices');
       ("processed_tiles", PyInt processed_count);
       ("total_tiles", PyInt (List.length tiles));
       ("success", PyBool (0 <? List.length matching_indices'));
       ("method", PyStr "enhanced_ocr")]
  | Raise msg =>
      [("target", PyStr target);
       ("matching_indices", PyIntList []);
       ("processed_tiles", PyInt 0);
       ("success", PyBool false);
       ("error", PyStr msg)]
  end.

End Service.

(* ================================================================= *)
(** ** Vocabulary of the statements *)

Section Vocabulary.

Context {image array : Type} `{Ext : Externals image array}.

(** The tile carries a payload the loop does not skip. *)
Definition tile_processed (tile : dict) : bool :=
  truthy (get tile "base64Image").

(** Recognition matched the tile: the test of the loop body. *)
Definition tile_matches (self : Service) (target : string) (tile : dict) : bool :=
  tile_processed tile
  && (let result := enhanced_ocr_process self (get tile "base64Image") target in
      truthy (get result "success") && truthy (get result "matches")).

(** The indices, counted from [idx], of the tiles recognition matched. *)
Fixpoint matched_from (self : Service) (target : string) (idx : nat)
    (tiles : list dict) : list nat :=
  match tiles with
  | [] => []
  | tile :: tiles' =>
      (if tile_matches self target tile then [idx] else [])
      ++ matched_from self target (S idx) tiles'
  end.

Definition processed_of (tiles : list dict) : nat :=
  List.length (filter tile_processed tiles).

(** The two variables of [process_captcha_tiles] when its loop ends. *)
Definition recognised_indices (self : Service) (target : string)
    (tiles : list dict) : list nat :=
  fst (scan_tiles self target 0 tiles [] 0).

Definition processed_count (self : Service) (target : string)
    (tiles : list dict) : nat :=
  snd (scan_tiles self target 0 tiles [] 0).

(** The selection [process_captcha_tiles] reports: the random sample when
    the fallback runs, the recognised indices otherwise. *)
Definition selection (self : Service) (target : string) (draws : list nat)
    (tiles : list dict) : list nat :=
  if fallback_fires self tiles target
  then PyRandom.sample_from draws (PyRandom.range (List.length tiles))
                            (Nat.min 3 (List.length tiles))
  else recognised_indices self target tiles.

(** The keys of the dictionary [process_captcha_tiles] returns from its
    [try] block. *)
Definition response_keys : list string :=
  ["target"; "matching_indices"; "processed_tiles"; "total_tiles"; "success";
   "method"].

(** Every recognizer reading of the payload is the text [text], and there
    is at least one: the tile decodes, is preprocessed, and the pooled
    detections all carry [text]. *)
Definition recognizer_output (self : Service) (payload text : string) : Prop :=
  exists img processed_images,
    open_image payload = Ok img
    /\ preprocess_image img = Ok processed_images
    /\ pooled_detections self processed_images <> []
    /\ Forall (fun d => fst d = text) (pooled_detections self processed_images).

(** The PIL part of [preprocess_image], outside the [try] block. *)
Definition pil_variants (image0 : image) : exc (list image) :=
  rgb <- (if mode_is_RGB image0 then Ok image0 else convert_RGB image0) ;;
  gray_image <- convert_L rgb ;;
  contrast_image <- enhance_contrast gray_image ;;
  sharp_image <- enhance_sharpness contrast_image ;;
  filtered_image <- median_filter gray_image ;;
  Ok [rgb; gray_image; contrast_image; sharp_image; filtered_image].

End Vocabulary.

(** What every detection of [extract_numbers_tesseract] satisfies. *)
Definition tesseract_detection_ok (self : Service) (d : detection) : Prop :=
  PyStr.isdigit (fst d) = true
  /\ ((2 <= String.length (fst d) /\ snd d = 0.8%float)
      \/ PyFloat.gt (snd d) (confidence_threshold self) = true).

(** A tile whose only entry is its payload. *)
Definition payload_tile (payload : string) : dict :=
  [("base64Image", PyStr payload)].

(** Two detection lists with the same set of texts. *)
Definition same_texts (r1 r2 : list detection) : Prop :=
  forall t, In t (map fst r1) <-> In t (map fst r2).

(** The index a tile gets when a tile is inserted at position [k]. *)
Definition shift_index (k i : nat) : nat := if i <? k then i else S i.

(* ================================================================= *)
(** ** Simulated backends *)

Module Sim.

(** Recognition is simulated: the payload of a tile is the text the OCR
    engine reads on each of its variants; the payload ["corrupt"] does not
    decode.  OpenCV rejects the one-channel array, as [cv2.cvtColor] does. *)
Definition backend : Externals string string := {|
  TESSERACT_AVAILABLE := false;
  EASYOCR_AVAILABLE := true;
  open_image := fun s =>
    if String.eqb s "corrupt" then Raise "cannot identify image file" else Ok s;
  mode_is_RGB := fun _ => true;
  convert_RGB := Ok;
  convert_L := Ok;
  enhance_contrast := Ok;
  enhance_sharpness := Ok;
  median_filter := Ok;
  cv_from_gray := fun _ => Raise "Invalid number of channels in input image";
  cv_binary := Ok;
  cv_adaptive := Ok;
  cv_morph := Ok;
  image_to_data := fun _ _ => Raise "tesseract is not installed";
  image_to_string := fun _ _ => Raise "tesseract is not installed";
  readtext := fun img => Ok [(img, 0.9%float)];
  pattern_hits := fun _ => []
|}.

(** Tesseract installed: it reads the payload as one word with confidence
    96 in [image_to_data] and as the same text in [image_to_string]. *)
Definition tesseract_backend : Externals string string := {|
  TESSERACT_AVAILABLE := true;
  EASYOCR_AVAILABLE := false;
  open_image := Ok;
  mode_is_RGB := fun _ => true;
  convert_RGB := Ok;
  convert_L := Ok;
  enhance_contrast := Ok;
  enhance_sharpness := Ok;
  median_filter := Ok;
  cv_from_gray := fun _ => Raise "Invalid number of channels in input image";
  cv_binary := Ok;
  cv_adaptive := Ok;
  cv_morph := Ok;
  image_to_data := fun img _ =>
    Ok {| td_text := [img]; td_conf := [96%float] |};
  image_to_string := fun img _ => Ok img;
  readtext := fun _ => Raise "easyocr is not installed";
  pattern_hits := fun _ => []
|}.

(** The contrast enhancement raises. *)
Definition contrast_fails : Externals string string := {|
  TESSERACT_AVAILABLE := false;
  EASYOCR_AVAILABLE := true;
  open_image := Ok;
  mode_is_RGB := fun _ => true;
  convert_RGB := Ok;
  convert_L := Ok;
  enhance_contrast := fun _ => Raise "image has wrong mode";
  enhance_sharpness := Ok;
  median_filter := Ok;
  cv_from_gray := fun _ => Raise "Invalid number of channels in input image";
  cv_binary := Ok;
  cv_adaptive := Ok;
  cv_morph := Ok;
  image_to_data := fun _ _ => Raise "tesseract is not installed";
  image_to_string := fun _ _ => Raise "tesseract is not installed";
  readtext := fun img => Ok [(img, 0.9%float)];
  pattern_hits := fun _ => []
|}.

Definition service : Service := init (Ext := backend) true.

Definition tile (payload : string) : dict := payload_tile payload.

(** A tile without the ['base64Image'] key. *)
Definition bare_tile : dict := [("index", PyInt 0)].

End Sim.

(* ================================================================= *)
(** ** The caller: tile preparation in [enhanced_captcha_solver]
       ([backend/enhanced_bls_automation.py]) *)

Module Solver.

(** A page element, as far as the solver looks at it: the outcome of
    [await img.get_attribute('src')] (a string, [None], or an exception). *)
Record element : Type := { src_attribute : exc (option string) }.

(** [s.split(sep)] for a one-character separator; [cur] is the piece being
    read. *)
Fixpoint split_from (sep : ascii) (cur : list ascii) (s : list ascii)
  : list string :=
  match s with
  | [] => [string_of_list_ascii cur]
  | c :: s' =>
      if Ascii.eqb c sep
      then string_of_list_ascii cur :: split_from sep [] s'
      else split_from sep (cur ++ [c]) s'
  end.

Definition split (sep : ascii) (s : string) : list string :=
  split_from sep [] (list_ascii_of_string s).

(** The loop that removes duplicates: [seen_srcs] and [unique_images] are
    its two variables. *)
Fixpoint remove_duplicates (all_images : list element) (seen_srcs : list string)
    (unique_images : list element) : list element :=
  match all_images with
  | [] => unique_images
  | img :: rest =>
      match src_attribute img with
      | Ok (Some src) =>
          if negb (String.eqb src "") && negb (existsb (String.eqb src) seen_srcs)
          then remove_duplicates rest (src :: seen_srcs) (unique_images ++ [img])
          else remove_duplicates rest seen_srcs unique_images
      | _ => remove_duplicates rest seen_srcs unique_images
      end
  end.

Section TileData.

(** The download of an image that is not inlined: the base64 text of its
    bytes, or [None] on each path of the source that skips the tile (a
    status other than 200, a failed navigation, an exception). *)
Variable download : string -> option string.

(** The body of the loop over [unique_images]: the tile appended for the
    image at position [idx], or [None] when the iteration ends in
    [continue]. *)
Definition tile_for (idx : nat) (img : element) : option dict :=
  match src_attribute img with
  | Ok (Some src) =>
      if String.eqb src "" then None
      else
        let base64_data :=
          if String.prefix "data:image" src
          then nth_error (split "," src) 1
          else download src in
        match base64_data with
        | Some data =>
            Some [("base64Image", PyStr data); ("index", PyInt idx);
                  ("src", PyStr src)]
        | None => None
        end
  | _ => None
  end.

Fixpoint collect_tiles (idx : nat) (unique_images : list element)
    (tile_data : list dict) : list dict :=
  match unique_images with
  | [] => tile_data
  | img :: rest =>
      match tile_for idx img with
      | Some tile => collect_tiles (S idx) rest (tile_data ++ [tile])
      | None => collect_tiles (S idx) rest tile_data
      end
  end.

Definition tile_data (unique_images : list element) : list dict :=
  collect_tiles 0 unique_images [].

(** The positions, counted from [idx], of the images that yield a tile. *)
Fixpoint kept_positions (idx : nat) (images : list element) : list nat :=
  match images with
  | [] => []
  | img :: rest =>
      match tile_for idx img with
      | Some _ => idx :: kept_positions (S idx) rest
      | None => kept_positions (S idx) rest
      end
  end.

End TileData.

(** The indices for which the click loop reaches [unique_images[idx]]. *)
Definition clicked (unique_images : list element) (matching_indices : list nat)
  : list nat :=
  filter (fun idx => idx <? List.length unique_images) matching_indices.

(** The source of an element when it is a non-empty string. *)
Definition src_of (img : element) : option string :=
  match src_attribute img with
  | Ok (Some src) => if String.eqb src "" then None else Some src
  | _ => None
  end.

End Solver.

(** The similarity test of [_fuzzy_match] at the default threshold, on the
    numbers [d] of differing characters and [n] of characters, against the
    exact bound [5 * d <= n]. *)
Definition similarity_agrees (n d : nat) : bool :=
  Bool.eqb
    (PyFloat.ge
       (PrimFloat.sub 1%float (PrimFloat.div (PyFloat.of_nat d) (PyFloat.of_nat n)))
       0.8%float)
    (5 * d <=? n).

Definition similarity_table (bound : nat) : bool :=
  forallb (fun n => forallb (similarity_agrees n) (seq 0 (S n))) (seq 1 bound).

(* ================================================================= *)
(** ** Facts about binary64 division *)

Module FloatFacts.

Local Open Scope Z_scope.

(** Shifting a mantissa right by fewer places than it has digits leaves a
    positive mantissa. *)
Lemma iter_shr_1_positive (k : positive) :
  forall mrs q, shr_m mrs = Zpos q -> Zpos k < Zpos (digits2_pos q) ->
  exists q', shr_m (SpecFloat.iter_pos shr_1 k mrs) = Zpos q'
             /\ Zpos (digits2_pos q') = Zpos (digits2_pos q) - Zpos k.
Proof.
  assert (step : forall mrs q, shr_m mrs = Zpos q -> 1 < Zpos (digits2_pos q) ->
            exists q', shr_m (shr_1 mrs) = Zpos q'
                       /\ Zpos (digits2_pos q') = Zpos (digits2_pos q) - 1).
  { intros [m r s] q Hm Hd; simpl in Hm; subst m.
    destruct q as [q|q|]; cbn [shr_1 shr_m digits2_pos] in *;
      rewrite ?Pos2Z.inj_succ in *; try lia; exists q; split; auto; lia. }
  induction k as [k IH|k IH|]; intros mrs q Hm Hd; cbn [SpecFloat.iter_pos].
  - destruct (step mrs q Hm) as (q1 & Hq1 & Hd1); [lia|].
    destruct (IH _ q1 Hq1) as (q2 & Hq2 & Hd2); [lia|].
    destruct (IH _ q2 Hq2) as (q3 & Hq3 & Hd3); [lia|].
    exists q3; split; auto; lia.
  - destruct (IH _ q Hm) as (q2 & Hq2 & Hd2); [lia|].
    destruct (IH _ q2 Hq2) as (q3 & Hq3 & Hd3); [lia|].
    exists q3; split; auto; lia.
  - apply step; auto.
Qed.

Lemma shr_fexp_positive (q : positive) (e : Z) (l : location) :
  SpecFloat.emin prec emax <= e ->
  exists mrs e' q', shr_fexp prec emax (Zpos q) e l = (mrs, e')
                    /\ shr_m mrs = Zpos q' /\ e <= e'.
Proof.
  intros He. unfold shr_fexp, shr.
  set (rec0 := shr_record_of_loc (Zpos q) l).
  assert (Hrec : shr_m rec0 = Zpos q)
    by (unfold rec0; destruct l as [|[]]; reflexivity).
  destruct (fexp prec emax (Zdigits2 (Zpos q) + e) - e) as [|k|k] eqn:Hn.
  - exists rec0, e, q; repeat split; auto; lia.
  - destruct (iter_shr_1_positive k rec0 q Hrec) as (q' & Hq' & _).
    + unfold fexp, SpecFloat.emin, prec, emax in *; simpl Zdigits2 in Hn; lia.
    + exists (SpecFloat.iter_pos shr_1 k rec0), (e + Zpos k), q';
        repeat split; auto; lia.
  - exists rec0, e, q; repeat split; auto; lia.
Qed.

Lemma binary_round_aux_positive (q : positive) (e : Z) :
  SpecFloat.emin prec emax <= e ->
  binary_round_aux prec emax false (Zpos q) e loc_Exact = S754_infinity false
  \/ exists m e',
       binary_round_aux prec emax false (Zpos q) e loc_Exact
       = S754_finite false m e'.
Proof.
  intros He. unfold binary_round_aux.
  destruct (shr_fexp_positive q e loc_Exact He)
    as (mrs1 & e1 & q1 & -> & Hq1 & He1).
  rewrite Hq1.
  assert (Hr : exists r,
             round_nearest_even (Zpos q1) (loc_of_shr_record mrs1) = Zpos r).
  { unfold round_nearest_even.
    destruct (loc_of_shr_record mrs1) as [|[]]; eauto.
    - destruct (Z.even (Zpos q1)); eauto. exists (q1 + 1)%positive; reflexivity.
    - exists (q1 + 1)%positive; reflexivity. }
  destruct Hr as (r & ->).
  destruct (shr_fexp_positive r e1 loc_Exact ltac:(lia))
    as (mrs2 & e2 & q2 & -> & Hq2 & _).
  rewrite Hq2. destruct (e2 <=? emax - prec); eauto.
Qed.

(** The float of a positive integer is a positive number or [+inf]. *)
Lemma binary_normalize_positive (p : positive) :
  binary_normalize prec emax (Zpos p) 0 false = S754_infinity false
  \/ exists m e, binary_normalize prec emax (Zpos p) 0 false = S754_finite false m e.
Proof.
  unfold binary_normalize, binary_round, shl_align.
  destruct (fexp prec emax (Zpos (digits2_pos p) + 0) - 0) eqn:Hn;
    apply binary_round_aux_positive;
    unfold fexp, SpecFloat.emin, prec, emax in *; lia.
Qed.

(** [0 / n] is [0.0] for every length [n] a Python object can have. *)
Lemma zero_truediv (n : nat) :
  (0 < n)%nat -> Z.of_nat n < 2 ^ 63 ->
  PyFloat.truediv 0 n = Ok 0%float.
Proof.
  intros Hpos Hmax. unfold PyFloat.truediv.
  destruct (Nat.eqb_spec n 0) as [->|_]; [lia|]. f_equal.
  apply Prim2SF_inj. rewrite FloatAxioms.div_spec. unfold PyFloat.of_nat.
  rewrite (of_uint63_spec (of_Z (Z.of_nat n))).
  rewrite Uint63.of_Z_spec, Z.mod_small by (change wB with (2 ^ 63); lia).
  destruct (Z.of_nat n) as [|p|p] eqn:Hp; try lia.
  destruct (binary_normalize_positive p) as [E | (m & e & E)];
    rewrite E; reflexivity.
Qed.

End FloatFacts.

(* ================================================================= *)
(** ** Facts about strings *)

Module StrFacts.

Lemma eqb_empty (s : string) : String.eqb s "" = true <-> s = "".
Proof. apply String.eqb_eq. Qed.

Lemma length_zero (s : string) : String.length s = 0 -> s = "".
Proof. destruct s; simpl; [reflexivity | discriminate]. Qed.

Lemma differences_zero (s : string) :
  forall t, String.length s = String.length t ->
            PyStr.differences s t = 0 -> s = t.
Proof.
  induction s as [|c s IH]; intros [|d t] Hlen Hd; simpl in *;
    try discriminate; auto.
  destruct (Ascii.eqb_spec c d) as [->|Hne]; simpl in Hd; [|discriminate].
  f_equal. apply IH; auto.
Qed.

Lemma differences_refl (s : string) : PyStr.differences s s = 0.
Proof.
  induction s as [|c s IH]; simpl; auto. now rewrite Ascii.eqb_refl, IH.
Qed.

Lemma length_list_ascii (s : string) :
  List.length (list_ascii_of_string s) = String.length s.
Proof. induction s; simpl; auto. Qed.

Lemma length_of_list_ascii (l : list ascii) :
  String.length (string_of_list_ascii l) = List.length l.
Proof. induction l; simpl; auto. Qed.

End StrFacts.

(* ================================================================= *)
(** ** Facts about [random.sample] *)

Module RandomFacts.

Import PyRandom.

Lemma remove_at_length {A : Type} (pool : list A) :
  forall j, j < List.length pool ->
            List.length (remove_at j pool) = List.length pool - 1.
Proof.
  induction pool as [|x pool IH]; intros [|j] Hj; simpl in *; try lia.
  rewrite IH by lia. lia.
Qed.

Lemma remove_at_In {A : Type} (pool : list A) :
  forall j x, In x (remove_at j pool) -> In x pool.
Proof.
  induction pool as [|y pool IH]; intros [|j] x Hx; simpl in *; auto.
  destruct Hx as [->|Hx]; eauto.
Qed.

Lemma remove_at_NoDup {A : Type} (pool : list A) :
  forall j, NoDup pool -> NoDup (remove_at j pool).
Proof.
  induction pool as [|y pool IH]; intros [|j] Hnd; simpl; auto;
    inversion Hnd; subst; auto.
  constructor; auto. intros Hin. apply remove_at_In in Hin. contradiction.
Qed.

Lemma remove_at_nth {A : Type} (pool : list A) :
  forall j d, j < List.length pool -> NoDup pool ->
              ~ In (nth j pool d) (remove_at j pool).
Proof.
  induction pool as [|y pool IH]; intros [|j] d Hj Hnd; simpl in *; try lia;
    inversion Hnd; subst; auto.
  intros [Heq|Hin].
  - apply H1. rewrite Heq. apply nth_In. lia.
  - eapply IH; eauto. lia.
Qed.

Lemma sample_from_length {A : Type} (k : nat) :
  forall draws (pool : list A),
    k <= List.length pool -> List.length (sample_from draws pool k) = k.
Proof.
  induction k as [|k IH]; intros draws pool Hk; [reflexivity|].
  destruct pool as [|x0 pool]; [simpl in Hk; lia|].
  cbn [sample_from].
  set (j := hd 0 draws mod List.length (x0 :: pool)).
  assert (Hj : j < List.length (x0 :: pool))
    by (apply Nat.mod_upper_bound; discriminate).
  cbn [List.length]. f_equal. apply IH.
  rewrite remove_at_length by exact Hj. simpl in *. lia.
Qed.

Lemma sample_from_In {A : Type} (k : nat) :
  forall draws (pool : list A) x, In x (sample_from draws pool k) -> In x pool.
Proof.
  induction k as [|k IH]; intros draws pool x Hx; [contradiction|].
  destruct pool as [|x0 pool]; [contradiction|].
  cbn [sample_from] in Hx.
  set (j := hd 0 draws mod List.length (x0 :: pool)) in *.
  assert (Hj : j < List.length (x0 :: pool))
    by (apply Nat.mod_upper_bound; discriminate).
  destruct Hx as [<-|Hx].
  - apply nth_In. exact Hj.
  - apply IH in Hx. eapply remove_at_In; eauto.
Qed.

Lemma sample_from_NoDup {A : Type} (k : nat) :
  forall draws (pool : list A), NoDup pool -> NoDup (sample_from draws pool k).
Proof.
  induction k as [|k IH]; intros draws pool Hnd; [constructor|].
  destruct pool as [|x0 pool]; [constructor|].
  cbn [sample_from].
  set (j := hd 0 draws mod List.length (x0 :: pool)).
  assert (Hj : j < List.length (x0 :: pool))
    by (apply Nat.mod_upper_bound; discriminate).
  constructor.
  - intros Hin. apply sample_from_In in Hin.
    eapply remove_at_nth; eauto.
  - apply IH. apply remove_at_NoDup; auto.
Qed.

Lemma range_In (n i : nat) : In i (range n) <-> i < n.
Proof. unfold range. rewrite in_seq. lia. Qed.

Lemma range_NoDup (n : nat) : NoDup (range n).
Proof. apply seq_NoDup. Qed.

Lemma range_length (n : nat) : List.length (range n) = n.
Proof. apply length_seq. Qed.

(** With [k = min(3, n)] the call never raises. *)
Lemma sample_min_ok (draws : list nat) (n : nat) :
  sample draws (range n) (Nat.min 3 n)
  = Ok (sample_from draws (range n) (Nat.min 3 n)).
Proof.
  unfold sample. rewrite range_length.
  destruct (Nat.ltb_spec n (Nat.min 3 n)); [lia | reflexivity].
Qed.

End RandomFacts.

(* ================================================================= *)
(** ** Facts about the tile loop *)

Section LoopFacts.

Context {image array : Type} `{Ext : Externals image array}.
Variable self : Service.
Variable target : string.

Lemma scan_tiles_spec (tiles : list dict) :
  forall idx matching_indices processed_count,
    scan_tiles self target idx tiles matching_indices processed_count
    = (matching_indices ++ matched_from self target idx tiles,
       processed_count + processed_of tiles).
Proof.
  induction tiles as [|tile tiles IH]; intros idx m p; simpl.
  - now rewrite app_nil_r, Nat.add_0_r.
  - unfold processed_of, tile_matches, tile_processed in *. simpl.
    destruct (truthy (get tile "base64Image")); simpl.
    + destruct (truthy (get (enhanced_ocr_process self (get tile "base64Image") target) "success")
                && truthy (get (enhanced_ocr_process self (get tile "base64Image") target) "matches"));
        rewrite IH; simpl; rewrite <- ?app_assoc; simpl; f_equal; lia.
    + rewrite IH. reflexivity.
Qed.

Lemma scan_tiles_start (tiles : list dict) :
  scan_tiles self target 0 tiles [] 0
  = (matched_from self target 0 tiles, processed_of tiles).
Proof. now rewrite scan_tiles_spec. Qed.

Lemma matched_from_bounds (tiles : list dict) :
  forall idx i, In i (matched_from self target idx tiles) ->
                idx <= i < idx + List.length tiles.
Proof.
  induction tiles as [|tile tiles IH]; intros idx i Hi; simpl in *; [contradiction|].
  apply in_app_or in Hi. destruct Hi as [Hi|Hi].
  - destruct (tile_matches self target tile); simpl in Hi; [|contradiction].
    destruct Hi as [<-|[]]. lia.
  - apply IH in Hi. lia.
Qed.

Lemma matched_from_sorted (tiles : list dict) :
  forall idx, StronglySorted lt (matched_from self target idx tiles).
Proof.
  induction tiles as [|tile tiles IH]; intros idx; simpl; [constructor|].
  destruct (tile_matches self target tile); simpl; auto.
  constructor; auto.
  apply Forall_forall. intros i Hi. apply matched_from_bounds in Hi. lia.
Qed.

Lemma matched_from_app (pre post : list dict) :
  forall idx,
    matched_from self target idx (pre ++ post)
    = matched_from self target idx pre
      ++ matched_from self target (idx + List.length pre) post.
Proof.
  induction pre as [|tile pre IH]; intros idx; simpl.
  - now rewrite Nat.add_0_r.
  - rewrite IH, <- app_assoc. do 3 f_equal. lia.
Qed.

Lemma matched_from_shift (tiles : list dict) :
  forall idx, matched_from self target (S idx) tiles
              = map S (matched_from self target idx tiles).
Proof.
  induction tiles as [|tile tiles IH]; intros idx; simpl; auto.
  rewrite map_app, IH. destruct (tile_matches self target tile); reflexivity.
Qed.

Lemma matched_from_nil_iff (tiles : list dict) :
  forall idx, matched_from self target idx tiles = []
              <-> Forall (fun tile => tile_matches self target tile = false) tiles.
Proof.
  induction tiles as [|tile tiles IH]; intros idx; simpl.
  - split; auto.
  - split.
    + intros H. apply app_eq_nil in H. destruct H as [H1 H2].
      constructor; [|eapply IH; eauto].
      destruct (tile_matches self target tile); [discriminate | reflexivity].
    + intros H. inversion H as [|? ? Hm Hr]; subst. rewrite Hm. simpl.
      apply IH; auto.
Qed.

Lemma processed_of_pos_iff (tiles : list dict) :
  0 < processed_of tiles <-> Exists (fun tile => tile_processed tile = true) tiles.
Proof.
  unfold processed_of. induction tiles as [|tile tiles IH]; simpl.
  - split; [lia | intros H; inversion H].
  - destruct (tile_processed tile) eqn:E; simpl.
    + split; [intros _; now left | lia].
    + rewrite IH. split; [now right|].
      intros H; inversion H; subst; [congruence | auto].
Qed.

Lemma processed_of_le (tiles : list dict) : processed_of tiles <= List.length tiles.
Proof. apply filter_length_le. Qed.

Lemma processed_of_app (pre post : list dict) :
  processed_of (pre ++ post) = processed_of pre + processed_of post.
Proof. unfold processed_of. now rewrite filter_app, length_app. Qed.

End LoopFacts.

(* ================================================================= *)
(** ** The batch orchestrator *)

Section Orchestrator.

Context {image array : Type} `{Ext : Externals image array}.
Variable self : Service.
Variable target : string.

Lemma recognised_indices_eq (tiles : list dict) :
  recognised_indices self target tiles = matched_from self target 0 tiles.
Proof. unfold recognised_indices. now rewrite scan_tiles_start. Qed.

Lemma processed_count_eq (tiles : list dict) :
  processed_count self target tiles = processed_of tiles.
Proof. unfold processed_count. now rewrite scan_tiles_start. Qed.

Lemma fallback_guard_true (matching_indices : list nat) (count : nat) :
  fallback_guard matching_indices count = true
  <-> matching_indices = [] /\ 0 < count.
Proof.
  unfold fallback_guard. simpl. rewrite andb_true_iff, Nat.ltb_lt.
  destruct matching_indices; simpl; intuition congruence.
Qed.

Lemma fallback_fires_eq (tiles : list dict) :
  fallback_fires self tiles target
  = fallback_guard (recognised_indices self target tiles)
                   (processed_count self target tiles).
Proof.
  unfold fallback_fires, recognised_indices, processed_count.
  destruct (scan_tiles self target 0 tiles [] 0); reflexivity.
Qed.

(** The response in closed form: the [except] branch is never taken. *)
Lemma process_captcha_tiles_eq (draws : list nat) (tiles : list dict) :
  process_captcha_tiles self draws tiles target
  = [("target", PyStr target);
     ("matching_indices", PyIntList (selection self target draws tiles));
     ("processed_tiles", PyInt (processed_count self target tiles));
     ("total_tiles", PyInt (List.length tiles));
     ("success", PyBool (0 <? List.length (selection self target draws tiles)));
     ("method", PyStr "enhanced_ocr")].
Proof.
  unfold selection. rewrite fallback_fires_eq.
  unfold process_captcha_tiles, recognised_indices, processed_count.
  destruct (scan_tiles self target 0 tiles [] 0) as [m p]. cbn [fst snd].
  destruct (fallback_guard m p); [rewrite RandomFacts.sample_min_ok|]; reflexivity.
Qed.

Lemma fallback_fires_iff (tiles : list dict) :
  fallback_fires self tiles target = true
  <-> Forall (fun tile => tile_matches self target tile = false) tiles
      /\ Exists (fun tile => tile_processed tile = true) tiles.
Proof.
  rewrite fallback_fires_eq, fallback_guard_true.
  rewrite recognised_indices_eq, processed_count_eq.
  now rewrite matched_from_nil_iff, processed_of_pos_iff.
Qed.

Lemma selection_fallback_length (draws : list nat) (tiles : list dict) :
  fallback_fires self tiles target = true ->
  List.length (selection self target draws tiles) = Nat.min 3 (List.length tiles)
  /\ 0 < List.length tiles.
Proof.
  intros Hf. unfold selection. rewrite Hf.
  rewrite RandomFacts.sample_from_length
    by (rewrite RandomFacts.range_length; lia).
  split; auto.
  apply fallback_fires_iff in Hf. destruct Hf as [_ Hex].
  apply processed_of_pos_iff in Hex.
  pose proof (processed_of_le tiles). lia.
Qed.

(** A tile recognition does not match leaves the indices of the other tiles
    as they are, up to the place it takes. *)
Lemma matched_from_insert (pre post : list dict) (tile : dict) :
  tile_matches self target tile = false ->
  matched_from self target 0 (pre ++ tile :: post)
  = map (shift_index (List.length pre)) (matched_from self target 0 (pre ++ post)).
Proof.
  intros Hno. rewrite !matched_from_app. simpl. rewrite Hno. simpl.
  rewrite map_app. f_equal.
  - rewrite <- (map_id (matched_from self target 0 pre)) at 1.
    apply map_ext_in. intros i Hi. apply matched_from_bounds in Hi.
    unfold shift_index. destruct (Nat.ltb_spec i (List.length pre)); lia.
  - rewrite matched_from_shift. apply map_ext_in. intros i Hi.
    apply matched_from_bounds in Hi.
    unfold shift_index. destruct (Nat.ltb_spec i (List.length pre)); lia.
Qed.

Lemma not_processed_not_matched (tile : dict) :
  tile_processed tile = false -> tile_matches self target tile = false.
Proof. intros H. unfold tile_matches. now rewrite H. Qed.

Lemma decode_failure_not_matched (tile : dict) :
  raised (decode_image (get tile "base64Image")) = true ->
  tile_matches self target tile = false.
Proof.
  intros H. unfold tile_matches, enhanced_ocr_process.
  destruct (decode_image (get tile "base64Image")); [discriminate|].
  simpl. apply andb_false_r.
Qed.

End Orchestrator.

(* ================================================================= *)
(** ** Properties of the batch response *)

Section BatchResponse.

Context {image array : Type} `{Ext : Externals image array}.
Variable self : Service.
Variable target : string.

(** C1, as amended.  The response has exactly the keys target,
    matching_indices, processed_tiles, total_tiles, success and method, and
    so no usedFallback field.  The random fallback runs if and only if
    recognition matched no tile and at least one tile carried a payload;
    matching_indices is then the random sample, and the recognised indices
    otherwise. *)
Theorem C1_fallback_without_flag (draws : list nat) (tiles : list dict) :
  let response := process_captcha_tiles self draws tiles target in
  keys response = response_keys
  /\ get response "usedFallback" = PyNone
  /\ (fallback_fires self tiles target = true
      <-> Forall (fun tile => tile_matches self target tile = false) tiles
          /\ Exists (fun tile => tile_processed tile = true) tiles)
  /\ get response "matching_indices"
     = PyIntList
         (if fallback_fires self tiles target
          then PyRandom.sample_from draws (PyRandom.range (List.length tiles))
                                    (Nat.min 3 (List.length tiles))
          else recognised_indices self target tiles).
Proof.
  cbv zeta. rewrite process_captcha_tiles_eq.
  split; [reflexivity|]. split; [reflexivity|].
  split; [apply fallback_fires_iff | reflexivity].
Qed.

(** C2, as amended.  success is true exactly when at least one tile of the
    batch carries a non-empty payload, and matching_indices is non-empty in
    exactly that case: with a payload somewhere the fallback fills the list
    when recognition matched nothing, and without any payload the list stays
    empty and success is false. *)
Theorem C2_success_iff_processed (draws : list nat) (tiles : list dict) :
  let response := process_captcha_tiles self draws tiles target in
  get response "success" = PyBool (existsb tile_processed tiles)
  /\ exists indices,
       get response "matching_indices" = PyIntList indices
       /\ (0 <? List.length indices) = existsb tile_processed tiles
       /\ (if existsb tile_processed tiles
           then exists i rest, indices = i :: rest
           else indices = []).
Proof.
  cbv zeta. rewrite process_captcha_tiles_eq.
  cbn [get String.eqb Ascii.eqb Bool.eqb].
  assert (Hsel : if existsb tile_processed tiles
                 then exists i rest, selection self target draws tiles = i :: rest
                 else selection self target draws tiles = []).
  { destruct (existsb tile_processed tiles) eqn:Hany.
    - assert (Hex : Exists (fun tile => tile_processed tile = true) tiles).
      { apply existsb_exists in Hany. apply Exists_exists. exact Hany. }
      apply processed_of_pos_iff in Hex.
      destruct (fallback_fires self tiles target) eqn:Hf.
      + destruct (selection_fallback_length self target draws tiles Hf)
          as [Hlen Hn].
        destruct (selection self target draws tiles) as [|i rest];
          [cbn [List.length] in Hlen; lia | eauto].
      + unfold selection. rewrite Hf. rewrite fallback_fires_eq in Hf.
        destruct (recognised_indices self target tiles) as [|i rest]; [|eauto].
        assert (fallback_guard [] (processed_count self target tiles) = true).
        { apply fallback_guard_true. rewrite processed_count_eq. auto. }
        congruence.
    - assert (Hnone : Forall (fun tile => tile_processed tile = false) tiles).
      { apply Forall_forall. intros tile Hin.
        destruct (tile_processed tile) eqn:E; auto.
        assert (existsb tile_processed tiles = true)
          by (apply existsb_exists; eauto).
        congruence. }
      assert (Hcount : processed_of tiles = 0).
      { destruct (Nat.eq_dec (processed_of tiles) 0) as [|Hpos]; auto.
        assert (Hex : Exists (fun tile => tile_processed tile = true) tiles)
          by (apply processed_of_pos_iff; lia).
        apply Exists_exists in Hex. destruct Hex as (tile & Hin & Htrue).
        rewrite Forall_forall in Hnone. rewrite (Hnone tile Hin) in Htrue.
        discriminate. }
      assert (Hrec : recognised_indices self target tiles = []).
      { rewrite recognised_indices_eq. apply matched_from_nil_iff.
        eapply Forall_impl; [|exact Hnone].
        intros tile. apply not_processed_not_matched. }
      unfold selection. rewrite fallback_fires_eq, Hrec, processed_count_eq, Hcount.
      reflexivity. }
  destruct (existsb tile_processed tiles).
  - destruct Hsel as (i & rest & Hsel). rewrite Hsel.
    split; [reflexivity|]. exists (i :: rest). repeat split. eauto.
  - rewrite Hsel. split; [reflexivity|]. exists []. repeat split.
Qed.

(** C3, as amended.  matching_indices has no duplicate and every element is
    below total_tiles; it is strictly ascending whenever the fallback did
    not run (the random sample comes in the order it was drawn). *)
Theorem C3_indices_distinct_in_range (draws : list nat) (tiles : list dict) :
  let response := process_captcha_tiles self draws tiles target in
  exists indices,
    get response "matching_indices" = PyIntList indices
    /\ get response "total_tiles" = PyInt (List.length tiles)
    /\ NoDup indices
    /\ Forall (fun i => i < List.length tiles) indices
    /\ (fallback_fires self tiles target = true \/ StronglySorted lt indices).
Proof.
  cbv zeta. rewrite process_captcha_tiles_eq.
  exists (selection self target draws tiles). split; [reflexivity|].
  split; [reflexivity|]. unfold selection.
  destruct (fallback_fires self tiles target) eqn:Hf.
  - split; [|split; [|now left]].
    + apply RandomFacts.sample_from_NoDup, RandomFacts.range_NoDup.
    + apply Forall_forall. intros i Hi.
      apply RandomFacts.sample_from_In in Hi. now apply RandomFacts.range_In in Hi.
  - rewrite recognised_indices_eq.
    pose proof (matched_from_sorted self target tiles 0) as Hs.
    split; [|split; [|now right]].
    + apply StronglySorted_Sorted in Hs. clear Hf.
      induction (matched_from self target 0 tiles) as [|i l IH]; constructor.
      * pose proof (matched_from_sorted self target tiles 0).
        intros Hin. apply Sorted_StronglySorted in Hs; [|intros x y z; lia].
        inversion Hs as [|? ? _ Hall]; subst.
        rewrite Forall_forall in Hall. apply Hall in Hin. lia.
      * apply IH. now inversion Hs.
    + apply Forall_forall. intros i Hi. apply matched_from_bounds in Hi. lia.
Qed.

(** C4, as amended.  A tile whose payload is present but cannot be decoded
    is counted in processed_tiles: the count is one more than that of the
    batch without it, and processed_tiles is the number of tiles carrying a
    payload, decodable or not.  The corrupt tile is never recognised and the
    other tiles are recognised exactly as without it. *)
Theorem C4_corrupt_tile_is_counted (draws : list nat) (pre post : list dict)
    (tile : dict) :
  tile_processed tile = true ->
  raised (decode_image (get tile "base64Image")) = true ->
  let response := process_captcha_tiles self draws (pre ++ tile :: post) target in
  get response "processed_tiles"
  = PyInt (S (processed_count self target (pre ++ post)))
  /\ get response "processed_tiles"
     = PyInt (List.length (filter tile_processed (pre ++ tile :: post)))
  /\ get response "total_tiles" = PyInt (S (List.length (pre ++ post)))
  /\ recognised_indices self target (pre ++ tile :: post)
     = map (shift_index (List.length pre))
           (recognised_indices self target (pre ++ post)).
Proof.
  intros Hp Hd. cbv zeta. rewrite process_captcha_tiles_eq.
  cbn [get String.eqb Ascii.eqb Bool.eqb].
  rewrite !processed_count_eq, !recognised_indices_eq.
  repeat split.
  - f_equal. rewrite !processed_of_app. unfold processed_of at 2.
    simpl. rewrite Hp. simpl. unfold processed_of. lia.
  - f_equal. rewrite !length_app. simpl. lia.
  - apply matched_from_insert. now apply decode_failure_not_matched.
Qed.

(** C10.  A tile without a truthy 'base64Image' entry is skipped: it does
    not change processed_tiles, it is never among the recognised indices,
    the other tiles are recognised exactly as without it (their indices
    moved by the place it takes), and whether the fallback runs is
    unchanged; it counts in total_tiles and in the range and size of the
    fallback sample. *)
Theorem C10_tile_without_payload_is_skipped (draws : list nat)
    (pre post : list dict) (tile : dict) :
  tile_processed tile = false ->
  let batch := pre ++ tile :: post in
  let response := process_captcha_tiles self draws batch target in
  let response' := process_captcha_tiles self draws (pre ++ post) target in
  get response "processed_tiles" = get response' "processed_tiles"
  /\ ~ In (List.length pre) (recognised_indices self target batch)
  /\ recognised_indices self target batch
     = map (shift_index (List.length pre))
           (recognised_indices self target (pre ++ post))
  /\ fallback_fires self batch target = fallback_fires self (pre ++ post) target
  /\ get response "total_tiles" = PyInt (S (List.length (pre ++ post)))
  /\ get response "matching_indices"
     = PyIntList
         (if fallback_fires self batch target
          then PyRandom.sample_from draws
                 (PyRandom.range (S (List.length (pre ++ post))))
                 (Nat.min 3 (S (List.length (pre ++ post))))
          else recognised_indices self target batch).
Proof.
  intros Hp. cbv zeta. rewrite !process_captcha_tiles_eq.
  cbn [get String.eqb Ascii.eqb Bool.eqb].
  assert (Hlen : List.length (pre ++ tile :: post) = S (List.length (pre ++ post)))
    by (rewrite !length_app; simpl; lia).
  assert (Hcount : processed_count self target (pre ++ tile :: post)
                   = processed_count self target (pre ++ post)).
  { rewrite !processed_count_eq, !processed_of_app. unfold processed_of at 2.
    simpl. now rewrite Hp. }
  assert (Hrec : recognised_indices self target (pre ++ tile :: post)
                 = map (shift_index (List.length pre))
                       (recognised_indices self target (pre ++ post))).
  { rewrite !recognised_indices_eq. apply matched_from_insert.
    now apply not_processed_not_matched. }
  repeat split.
  - now rewrite Hcount.
  - rewrite Hrec. intros Hin. apply in_map_iff in Hin.
    destruct Hin as (i & Hi & _). unfold shift_index in Hi.
    destruct (Nat.ltb_spec i (List.length pre)); lia.
  - exact Hrec.
  - rewrite !fallback_fires_eq, Hcount, Hrec.
    unfold fallback_guard. simpl. now rewrite length_map.
  - now rewrite Hlen.
  - unfold selection. now rewrite Hlen.
Qed.

End BatchResponse.

(* ================================================================= *)
(** ** Facts about the consolidator *)

Section ConsolidatorFacts.

Context {image array : Type} `{Ext : Externals image array}.

Lemma group_add_texts (text : string) (confidence : float)
    (groups : list (string * list float)) (x : string) :
  In x (map fst (group_add text confidence groups))
  <-> x = text \/ In x (map fst groups).
Proof.
  induction groups as [|[t cs] groups IH]; simpl.
  - intuition.
  - destruct (String.eqb_spec t text) as [->|Hne]; simpl; [intuition|].
    rewrite IH. intuition.
Qed.

Lemma group_add_NoDup (text : string) (confidence : float)
    (groups : list (string * list float)) :
  NoDup (map fst groups) -> NoDup (map fst (group_add text confidence groups)).
Proof.
  induction groups as [|[t cs] groups IH]; simpl; intros Hnd.
  - constructor; [intros [] | constructor].
  - destruct (String.eqb_spec t text) as [->|Hne]; simpl; auto.
    inversion Hnd; subst. constructor; auto.
    rewrite group_add_texts. intuition.
Qed.

Lemma group_add_nonempty (text : string) (confidence : float)
    (groups : list (string * list float)) :
  Forall (fun g => snd g <> []) groups ->
  Forall (fun g => snd g <> []) (group_add text confidence groups).
Proof.
  induction groups as [|[t cs] groups IH]; simpl; intros Hall.
  - constructor; [discriminate | constructor].
  - inversion Hall; subst.
    destruct (String.eqb t text); constructor; simpl; auto.
    destruct cs; discriminate.
Qed.

Lemma fold_group_add_texts (all_results : list detection) :
  forall groups x,
    In x (map fst (fold_left (fun g r => group_add (fst r) (snd r) g)
                             all_results groups))
    <-> In x (map fst all_results) \/ In x (map fst groups).
Proof.
  induction all_results as [|[t c] rest IH]; intros groups x; simpl.
  - intuition.
  - rewrite IH, group_add_texts. intuition.
Qed.

Lemma group_results_texts (all_results : list detection) (x : string) :
  In x (map fst (group_results all_results)) <-> In x (map fst all_results).
Proof.
  unfold group_results. rewrite fold_group_add_texts. simpl. intuition.
Qed.

Lemma group_results_NoDup (all_results : list detection) :
  NoDup (map fst (group_results all_results)).
Proof.
  unfold group_results.
  assert (H : forall groups, NoDup (map fst groups) ->
              NoDup (map fst (fold_left (fun g r => group_add (fst r) (snd r) g)
                                        all_results groups))).
  { induction all_results as [|[t c] rest IH]; intros groups Hnd; simpl; auto.
    apply IH. now apply group_add_NoDup. }
  apply H. constructor.
Qed.

Lemma group_results_nonempty (all_results : list detection) :
  Forall (fun g => snd g <> []) (group_results all_results).
Proof.
  unfold group_results.
  assert (H : forall groups, Forall (fun g => snd g <> []) groups ->
              Forall (fun g => snd g <> [])
                     (fold_left (fun g r => group_add (fst r) (snd r) g)
                                all_results groups)).
  { induction all_results as [|[t c] rest IH]; intros groups Hall; simpl; auto.
    apply IH. now apply group_add_nonempty. }
  apply H. constructor.
Qed.

Lemma insert_desc_perm (x : detection) (sorted : list detection) :
  Permutation (insert_desc x sorted) (x :: sorted).
Proof.
  induction sorted as [|y sorted IH]; simpl; auto.
  destruct (PrimFloat.ltb (snd x) (snd y)); auto.
  rewrite IH. apply perm_swap.
Qed.

Lemma sort_desc_perm (l : list detection) : Permutation (sort_desc l) l.
Proof.
  induction l as [|x l IH]; simpl; auto.
  rewrite insert_desc_perm. now constructor.
Qed.

Lemma final_results_perm (all_results : list detection) :
  Permutation (map fst (final_results all_results))
              (map fst (group_results all_results)).
Proof.
  unfold final_results. rewrite sort_desc_perm, map_map. simpl.
  apply Permutation_refl.
Qed.

Lemma final_results_texts (all_results : list detection) (x : string) :
  In x (map fst (final_results all_results)) <-> In x (map fst all_results).
Proof.
  transitivity (In x (map fst (group_results all_results)));
    [|apply group_results_texts].
  split; apply Permutation_in; [|symmetry]; apply final_results_perm.
Qed.

Lemma filter_texts (test : string -> bool) (l : list detection) (x : string) :
  In x (map fst (filter (fun r => test (fst r)) l))
  <-> In x (map fst l) /\ test x = true.
Proof.
  rewrite !in_map_iff. split.
  - intros ([t c] & <- & Hin). apply filter_In in Hin. simpl in *.
    destruct Hin as [Hin Ht]. split; auto. now exists (t, c).
  - intros (([t c] & <- & Hin) & Ht). exists (t, c). split; auto.
    apply filter_In. auto.
Qed.

Lemma exact_matches_In (all_results : list detection) (target x : string) :
  In x (exact_matches all_results target)
  <-> In x (map fst all_results) /\ _text_matches_target x target = true.
Proof.
  unfold exact_matches.
  rewrite (filter_texts (fun t => _text_matches_target t target)).
  now rewrite final_results_texts.
Qed.

Lemma fuzzy_matches_In (self : Service) (all_results : list detection)
    (target x : string) :
  In x (fuzzy_matches self all_results target)
  <-> In x (map fst all_results) /\ _fuzzy_match self x target = true.
Proof.
  unfold fuzzy_matches.
  rewrite (filter_texts (fun t => _fuzzy_match self t target)).
  now rewrite final_results_texts.
Qed.

Lemma exact_matches_nil (all_results : list detection) (target : string) :
  exact_matches all_results target = []
  <-> forall x, In x (map fst all_results) -> _text_matches_target x target = false.
Proof.
  split.
  - intros Hnil x Hx. destruct (_text_matches_target x target) eqn:E; auto.
    assert (Hin : In x (exact_matches all_results target))
      by (apply exact_matches_In; auto).
    rewrite Hnil in Hin. contradiction.
  - intros Hall. destruct (exact_matches all_results target) as [|x l] eqn:E; auto.
    assert (Hin : In x (exact_matches all_results target))
      by (rewrite E; now left).
    apply exact_matches_In in Hin. destruct Hin as [Hin Ht].
    rewrite Hall in Ht; auto. discriminate.
Qed.

(** Membership in the result in terms of the set of detected texts. *)
Lemma consolidate_results_In (self : Service) (all_results : list detection)
    (target x : string) :
  In x (consolidate_results self all_results target)
  <-> In x (map fst all_results)
      /\ (_text_matches_target x target = true
          \/ (forall y, In y (map fst all_results) ->
                        _text_matches_target y target = false)
             /\ _fuzzy_match self x target = true).
Proof.
  unfold consolidate_results.
  destruct all_results as [|r rest] eqn:Hr; [simpl; intuition|].
  rewrite <- Hr. clear Hr.
  destruct (exact_matches all_results target) as [|m ms] eqn:E.
  - rewrite fuzzy_matches_In.
    pose proof (proj1 (exact_matches_nil all_results target) E) as Hnone.
    split.
    + intros [Hin Hf]. auto.
    + intros [Hin [Ht|[_ Hf]]]; auto. rewrite Hnone in Ht; auto. discriminate.
  - rewrite <- E, exact_matches_In. split.
    + intros [Hin Ht]. auto.
    + intros [Hin [Ht|[Hall _]]]; auto.
      pose proof (proj2 (exact_matches_nil all_results target) Hall) as Hnil.
      rewrite Hnil in E. discriminate.
Qed.

(** Detections that all carry one text form one group. *)
Lemma group_single_text (text : string) (all_results : list detection) :
  Forall (fun d => fst d = text) all_results ->
  forall confidences,
    fold_left (fun g r => group_add (fst r) (snd r) g) all_results
              [(text, confidences)]
    = [(text, confidences ++ map snd all_results)].
Proof.
  induction 1 as [|[t c] rest Hd _ IH]; intros cs; simpl.
  - now rewrite app_nil_r.
  - simpl in Hd. subst t. rewrite String.eqb_refl, IH, <- app_assoc. reflexivity.
Qed.

Lemma consolidate_single_text (self : Service) (text target : string)
    (all_results : list detection) :
  all_results <> [] ->
  Forall (fun d => fst d = text) all_results ->
  consolidate_results self all_results target
  = if _text_matches_target text target || _fuzzy_match self text target
    then [text] else [].
Proof.
  intros Hne Hall. destruct all_results as [|[t c] rest]; [congruence|].
  inversion Hall as [|? ? Ht Hrest]; subst. simpl in *.
  unfold consolidate_results, exact_matches, fuzzy_matches, final_results,
    group_results.
  cbn [fold_left group_add fst snd]. rewrite (group_single_text t rest Hrest).
  cbn [map sort_desc fold_right insert_desc filter fst snd].
  destruct (_text_matches_target t target); simpl; auto.
  destruct (_fuzzy_match self t target); reflexivity.
Qed.

End ConsolidatorFacts.

(* ================================================================= *)
(** ** Properties of matching *)

Section Matching.

Context {image array : Type} `{Ext : Externals image array}.

Lemma tile_matches_recognizer_output (self : Service) (target payload text : string) :
  payload <> "" ->
  recognizer_output self payload text ->
  tile_matches self target (payload_tile payload)
  = _text_matches_target text target || _fuzzy_match self text target.
Proof.
  intros Hne (img & variants & Hopen & Hpre & Hnonempty & Hall).
  unfold tile_matches, tile_processed, payload_tile.
  cbn [get String.eqb Ascii.eqb Bool.eqb truthy].
  destruct (String.eqb_spec payload "") as [->|_]; [congruence|].
  unfold enhanced_ocr_process, decode_image. rewrite Hopen, Hpre.
  cbn [get String.eqb Ascii.eqb Bool.eqb truthy negb andb].
  rewrite (consolidate_single_text self text target _ Hnonempty Hall).
  destruct (_text_matches_target text target || _fuzzy_match self text target);
    reflexivity.
Qed.

(** C5.  With target "47" and five tiles on which the recognizers read
    "47", "74", "12", "47" and "99", the response has matching_indices
    [0, 1, 3] and the fallback does not run; "74" matches in the first pass
    because its reverse is the target. *)
Theorem C5_scenario_target_47 (reader_ok : bool) (draws : list nat)
    (p0 p1 p2 p3 p4 : string) :
  let self := init reader_ok in
  Forall (fun p => p <> "") [p0; p1; p2; p3; p4] ->
  recognizer_output self p0 "47" ->
  recognizer_output self p1 "74" ->
  recognizer_output self p2 "12" ->
  recognizer_output self p3 "47" ->
  recognizer_output self p4 "99" ->
  let tiles := map payload_tile [p0; p1; p2; p3; p4] in
  get (process_captcha_tiles self draws tiles "47") "matching_indices"
  = PyIntList [0; 1; 3]
  /\ fallback_fires self tiles "47" = false
  /\ _text_matches_target "74" "47" = true
  /\ String.eqb (PyStr.reversed "74") "47" = true.
Proof.
  intros self Hne H0 H1 H2 H3 H4 tiles.
  repeat match goal with
         | H : Forall _ (_ :: _) |- _ => inversion H; clear H; subst
         end.
  assert (Hrec : recognised_indices self "47" tiles = [0; 1; 3]).
  { rewrite recognised_indices_eq. unfold tiles. cbn [map matched_from].
    rewrite (tile_matches_recognizer_output self "47" p0 "47"),
      (tile_matches_recognizer_output self "47" p1 "74"),
      (tile_matches_recognizer_output self "47" p2 "12"),
      (tile_matches_recognizer_output self "47" p3 "47"),
      (tile_matches_recognizer_output self "47" p4 "99") by assumption.
    vm_compute. reflexivity. }
  assert (Hfb : fallback_fires self tiles "47" = false).
  { rewrite fallback_fires_eq, Hrec. reflexivity. }
  split; [|split; [exact Hfb | split; reflexivity]].
  rewrite process_captcha_tiles_eq. unfold selection. rewrite Hfb, Hrec.
  reflexivity.
Qed.

(** C6.  At the default threshold 0.8 the fuzzy rule behaves as a boundary:
    two strings of length 4 that differ in exactly one character (similarity
    0.75) do not fuzzy-match; two strings of length 4 that differ in no
    character do, and so do any two non-empty strings of equal length that
    differ in no character; two strings of different lengths never do; and
    when the first pass matched some text, consolidate_results returns the
    first-pass list, so the fuzzy pass is attempted only when the first pass
    produced no match. *)
Theorem C6_fuzzy_boundary (reader_ok : bool) (text target : string) :
  let self := init reader_ok in
  (String.length text = 4 -> String.length target = 4 ->
   PyStr.differences text target = 1 -> _fuzzy_match self text target = false)
  /\ (String.length text = 4 -> String.length target = 4 ->
      PyStr.differences text target = 0 -> _fuzzy_match self text target = true)
  /\ (text <> "" -> (Z.of_nat (String.length text) < 2 ^ 63)%Z ->
      String.length text = String.length target ->
      PyStr.differences text target = 0 -> _fuzzy_match self text target = true)
  /\ (String.length text <> String.length target ->
      _fuzzy_match self text target = false)
  /\ (forall all_results,
        exact_matches all_results target <> [] ->
        consolidate_results self all_results target
        = exact_matches all_results target)
  /\ (forall all_results,
        exact_matches all_results target = [] ->
        consolidate_results self all_results target
        = match all_results with
          | [] => []
          | _ => fuzzy_matches self all_results target
          end).
Proof.
  intros self. split; [|split; [|split; [|split; [|split]]]].
  - intros Ht Hg Hd. unfold _fuzzy_match. rewrite Ht, Hg, Hd. reflexivity.
  - intros Ht Hg Hd. unfold _fuzzy_match. rewrite Ht, Hg, Hd. reflexivity.
  - intros Hne Hmax Hlen Hd. unfold _fuzzy_match.
    rewrite <- Hlen, Nat.eqb_refl, Hd. cbn [negb].
    rewrite FloatFacts.zero_truediv;
      [reflexivity | destruct text; [congruence | simpl; lia] | assumption].
  - intros Hlen. unfold _fuzzy_match.
    destruct (Nat.eqb_spec (String.length text) (String.length target));
      [contradiction | reflexivity].
  - intros all_results Hex. unfold consolidate_results.
    destruct all_results as [|r rest]; [now elim Hex|].
    destruct (exact_matches (r :: rest) target); [now elim Hex | reflexivity].
  - intros all_results Hex. unfold consolidate_results.
    destruct all_results as [|r rest]; [reflexivity|]. now rewrite Hex.
Qed.

(** C9.  Two detection lists with the same set of texts give the same set
    of matches, whatever their confidences; in particular the result is
    empty for one exactly when it is empty for the other. *)
Theorem C9_matches_independent_of_confidence (self : Service) (target : string)
    (r1 r2 : list detection) :
  same_texts r1 r2 ->
  (forall x, In x (consolidate_results self r1 target)
             <-> In x (consolidate_results self r2 target))
  /\ (consolidate_results self r1 target = []
      <-> consolidate_results self r2 target = []).
Proof.
  intros Hsame.
  assert (Hset : forall x, In x (consolidate_results self r1 target)
                           <-> In x (consolidate_results self r2 target)).
  { intros x. rewrite !consolidate_results_In.
    split; intros [Hin Hm]; (split; [now apply Hsame|]);
      (destruct Hm as [Hm|[Hnone Hf]]; [now left | right; split; auto]);
      intros y Hy; apply Hnone; now apply Hsame. }
  split; [exact Hset|].
  split; intros Hnil.
  - destruct (consolidate_results self r2 target) as [|x l] eqn:E; auto.
    assert (Hin : In x (consolidate_results self r1 target))
      by (apply Hset; now left).
    rewrite Hnil in Hin. contradiction.
  - destruct (consolidate_results self r1 target) as [|x l] eqn:E; auto.
    assert (Hin : In x (consolidate_results self r2 target))
      by (apply Hset; now left).
    rewrite Hnil in Hin. contradiction.
Qed.

End Matching.

(* ================================================================= *)
(** ** Properties of the preprocessor and of the recognizers *)

Section Recognizers.

Context {image array : Type} `{Ext : Externals image array}.

Lemma opencv_variants_length (gray_image : image) :
  List.length (opencv_variants gray_image) <= 3.
Proof.
  unfold opencv_variants.
  destruct (cv_from_gray gray_image) as [cv|]; simpl; [|lia].
  destruct (cv_binary cv); simpl; [|lia].
  destruct (cv_adaptive cv); simpl; [|lia].
  destruct (cv_morph cv); simpl; lia.
Qed.

(** C8, as amended.  When preprocess_image returns, its list starts with
    the RGB image, its grayscale conversion, the contrast, sharpness and
    median variants, followed by at most three OpenCV variants; an exception
    of an OpenCV step is dropped and never makes it raise.  An exception of a
    PIL step (conversion to RGB or to grayscale, contrast, sharpness, median
    filter) is not caught: preprocess_image raises it, and
    enhanced_ocr_process then returns the failed result for that tile, with
    the message of the exception. *)
Theorem C8_preprocess_variants (image0 : image) :
  let is_rgb_of rgb :=
    if mode_is_RGB image0 then rgb = image0 else convert_RGB image0 = Ok rgb in
  match preprocess_image image0 with
  | Ok variants =>
      exists rgb gray contrast sharp filtered rest,
        variants = rgb :: gray :: contrast :: sharp :: filtered :: rest
        /\ is_rgb_of rgb
        /\ convert_L rgb = Ok gray
        /\ rest = opencv_variants gray
        /\ List.length rest <= 3
  | Raise msg => pil_variants image0 = Raise msg
  end
  /\ match pil_variants image0 with
     | Ok pil =>
         exists gray, nth_error pil 1 = Some gray
                      /\ preprocess_image image0 = Ok (pil ++ opencv_variants gray)
     | Raise msg =>
         preprocess_image image0 = Raise msg
         /\ forall self payload target,
              decode_image payload = Ok image0 ->
              enhanced_ocr_process self payload target
              = [("success", PyBool false); ("error", PyStr msg)]
     end
  /\ (forall msg, mode_is_RGB image0 = false ->
                  convert_RGB image0 = Raise msg ->
                  preprocess_image image0 = Raise msg)
  /\ (forall rgb msg, is_rgb_of rgb ->
                      convert_L rgb = Raise msg ->
                      preprocess_image image0 = Raise msg)
  /\ (forall rgb gray msg, is_rgb_of rgb ->
                           convert_L rgb = Ok gray ->
                           enhance_contrast gray = Raise msg ->
                           preprocess_image image0 = Raise msg)
  /\ (forall rgb gray contrast msg, is_rgb_of rgb ->
                                    convert_L rgb = Ok gray ->
                                    enhance_contrast gray = Ok contrast ->
                                    enhance_sharpness contrast = Raise msg ->
                                    preprocess_image image0 = Raise msg)
  /\ (forall rgb gray contrast sharp msg, is_rgb_of rgb ->
                                          convert_L rgb = Ok gray ->
                                          enhance_contrast gray = Ok contrast ->
                                          enhance_sharpness contrast = Ok sharp ->
                                          median_filter gray = Raise msg ->
                                          preprocess_image image0 = Raise msg).
Proof.
  cbv zeta.
  assert (Hrgb : forall rgb,
             (if mode_is_RGB image0 then rgb = image0
              else convert_RGB image0 = Ok rgb) ->
             (if mode_is_RGB image0 then Ok image0 else convert_RGB image0)
             = Ok rgb).
  { intros rgb H. destruct (mode_is_RGB image0); congruence. }
  split; [|split; [|split; [|split; [|split; [|split]]]]].
  - unfold preprocess_image, pil_variants.
    destruct (mode_is_RGB image0) eqn:Hmode.
    + cbn [bind].
      destruct (convert_L image0) as [gray|] eqn:Hgray; cbn [bind]; auto.
      destruct (enhance_contrast gray) as [contrast|]; cbn [bind]; auto.
      destruct (enhance_sharpness contrast) as [sharp|]; cbn [bind]; auto.
      destruct (median_filter gray) as [filtered|]; cbn [bind]; auto.
      exists image0, gray, contrast, sharp, filtered, (opencv_variants gray).
      repeat split; auto. apply opencv_variants_length.
    + destruct (convert_RGB image0) as [rgb|] eqn:Hconv; cbn [bind]; auto.
      destruct (convert_L rgb) as [gray|] eqn:Hgray; cbn [bind]; auto.
      destruct (enhance_contrast gray) as [contrast|]; cbn [bind]; auto.
      destruct (enhance_sharpness contrast) as [sharp|]; cbn [bind]; auto.
      destruct (median_filter gray) as [filtered|]; cbn [bind]; auto.
      exists rgb, gray, contrast, sharp, filtered, (opencv_variants gray).
      repeat split; auto. apply opencv_variants_length.
  - assert (Hfail : forall msg, preprocess_image image0 = Raise msg ->
               forall self payload target,
                 decode_image payload = Ok image0 ->
                 enhanced_ocr_process self payload target
                 = [("success", PyBool false); ("error", PyStr msg)]).
    { intros msg Hraise self payload target Hdec.
      unfold enhanced_ocr_process. now rewrite Hdec, Hraise. }
    revert Hfail. unfold preprocess_image, pil_variants.
    destruct (if mode_is_RGB image0 then Ok image0 else convert_RGB image0)
      as [rgb|]; cbn [bind]; [|now auto].
    destruct (convert_L rgb) as [gray|]; cbn [bind]; [|now auto].
    destruct (enhance_contrast gray) as [contrast|]; cbn [bind]; [|now auto].
    destruct (enhance_sharpness contrast) as [sharp|]; cbn [bind]; [|now auto].
    destruct (median_filter gray) as [filtered|]; cbn [bind]; [|now auto].
    intros _. exists gray. split; reflexivity.
  - intros msg Hmode Hconv. unfold preprocess_image. now rewrite Hmode, Hconv.
  - intros rgb msg Hr Hgray. unfold preprocess_image.
    rewrite (Hrgb rgb Hr). cbn [bind]. now rewrite Hgray.
  - intros rgb gray msg Hr Hgray Hc. unfold preprocess_image.
    rewrite (Hrgb rgb Hr). cbn [bind]. rewrite Hgray. cbn [bind]. now rewrite Hc.
  - intros rgb gray contrast msg Hr Hgray Hc Hs. unfold preprocess_image.
    rewrite (Hrgb rgb Hr). cbn [bind]. rewrite Hgray. cbn [bind].
    rewrite Hc. cbn [bind]. now rewrite Hs.
  - intros rgb gray contrast sharp msg Hr Hgray Hc Hs Hm. unfold preprocess_image.
    rewrite (Hrgb rgb Hr). cbn [bind]. rewrite Hgray. cbn [bind].
    rewrite Hc. cbn [bind]. rewrite Hs. cbn [bind]. now rewrite Hm.
Qed.

Lemma isdigit_of_run (run : list ascii) :
  run <> [] -> forallb PyStr.is_digit run = true ->
  PyStr.isdigit (string_of_list_ascii run) = true.
Proof.
  intros Hne Hd. unfold PyStr.isdigit.
  rewrite StrFacts.length_of_list_ascii, list_ascii_of_string_of_list_ascii, Hd.
  destruct run; [congruence | reflexivity].
Qed.

Lemma findall_digits_from_isdigit (s : list ascii) :
  forall run x, forallb PyStr.is_digit run = true ->
                In x (PyStr.findall_digits_from run s) ->
                PyStr.isdigit x = true.
Proof.
  assert (Hflush : forall run x, forallb PyStr.is_digit run = true ->
                                 In x (PyStr.flush run) -> PyStr.isdigit x = true).
  { intros run x Hd Hx. destruct run as [|c run]; [contradiction|].
    destruct Hx as [<-|[]]. apply isdigit_of_run; [discriminate | exact Hd]. }
  induction s as [|c s IH]; intros run x Hd Hx; simpl in Hx.
  - eapply Hflush; eauto.
  - destruct (PyStr.is_digit c) eqn:Hc.
    + apply (IH (run ++ [c])); auto.
      rewrite forallb_app, Hd. simpl. now rewrite Hc.
    + apply in_app_or in Hx. destruct Hx as [Hx|Hx].
      * eapply Hflush; eauto.
      * apply (IH []); auto.
Qed.

Lemma findall_digits_isdigit (s x : string) :
  In x (PyStr.findall_digits s) -> PyStr.isdigit x = true.
Proof. apply findall_digits_from_isdigit. reflexivity. Qed.

Lemma tesseract_string_results_ok (self : Service) (text : string) :
  Forall (tesseract_detection_ok self) (tesseract_string_results text).
Proof.
  apply Forall_forall. intros [num c] Hin. unfold tesseract_string_results in Hin.
  apply in_map_iff in Hin. destruct Hin as (n & Heq & Hin). inversion Heq; subst.
  apply filter_In in Hin. destruct Hin as [Hin Hlen].
  split; simpl.
  - eapply findall_digits_isdigit; eauto.
  - left. split; auto. now apply Nat.leb_le.
Qed.

Lemma tesseract_data_loop_ok (self : Service) (texts : list string)
    (conf : list float) :
  forall i results,
    Forall (tesseract_detection_ok self) results ->
    Forall (tesseract_detection_ok self)
           (fst (tesseract_data_loop self i texts conf results)).
Proof.
  induction texts as [|text texts IH]; intros i results Hall; simpl; auto.
  destruct (negb (String.eqb (PyStr.strip text) "")
            && PyStr.isdigit (PyStr.strip text)) eqn:Hd; [|now apply IH].
  destruct (nth_error conf i) as [c|]; simpl; auto.
  apply IH.
  destruct (PyFloat.gt (PrimFloat.div c 100) (confidence_threshold self)) eqn:Hc;
    auto.
  apply Forall_app. split; auto. constructor; [|constructor].
  apply andb_true_iff in Hd. destruct Hd as [_ Hd].
  split; simpl; auto.
Qed.

Lemma tesseract_config_ok (self : Service) (img : image)
    (results : list detection) (config : string) :
  Forall (tesseract_detection_ok self) results ->
  Forall (tesseract_detection_ok self) (tesseract_config self img results config).
Proof.
  intros Hall. unfold tesseract_config.
  destruct (image_to_data img config) as [data|]; auto.
  pose proof (tesseract_data_loop_ok self (td_text data) (td_conf data) 0
                results Hall) as Hloop.
  destruct (tesseract_data_loop self 0 (td_text data) (td_conf data) results)
    as [results1 loop_raised]. simpl in Hloop.
  destruct loop_raised; auto.
  destruct (image_to_string img config) as [text|]; auto.
  apply Forall_app. split; auto. apply tesseract_string_results_ok.
Qed.

(** Every string extract_numbers_tesseract returns is a non-empty string
    of digits; it comes from the regular-expression path (confidence 0.8, at
    least two digits) or from the image_to_data path (confidence above the
    threshold). *)
Lemma tesseract_detections_are_digit_strings (self : Service) (img : image) :
  Forall (fun d =>
            PyStr.isdigit (fst d) = true
            /\ ((2 <= String.length (fst d) /\ snd d = 0.8%float)
                \/ PyFloat.gt (snd d) (confidence_threshold self) = true))
         (extract_numbers_tesseract self img).
Proof.
  unfold extract_numbers_tesseract.
  destruct TESSERACT_AVAILABLE; simpl negb; cbv iota; [|constructor].
  assert (H : forall configs results,
             Forall (tesseract_detection_ok self) results ->
             Forall (tesseract_detection_ok self)
                    (fold_left (tesseract_config self img) configs results)).
  { induction configs as [|config configs IH]; intros results Hall; simpl; auto.
    apply IH. now apply tesseract_config_ok. }
  apply (H tesseract_configs []). constructor.
Qed.

End Recognizers.

(* ================================================================= *)
(** ** Concrete batches on the simulated backends *)

(** On a batch where recognition matches nothing the fallback runs, and the
    response still has no usedFallback entry. *)
Lemma C1_counterexample :
  let tiles := map Sim.tile ["12"; "99"; "31"] in
  let response :=
    process_captcha_tiles (Ext := Sim.backend) Sim.service [2; 0; 0] tiles "47" in
  fallback_fires (Ext := Sim.backend) Sim.service tiles "47" = true
  /\ ~ In "usedFallback" (keys response)
  /\ get response "usedFallback" = PyNone.
Proof.
  cbv zeta. split; [vm_compute; reflexivity|]. split; [|vm_compute; reflexivity].
  vm_compute. intros H.
  repeat (destruct H as [H|H]; [discriminate H|]). exact H.
Qed.

(** A non-empty batch whose only tile has no payload: success is false. *)
Lemma C2_counterexample :
  let tiles := [Sim.bare_tile] in
  let response :=
    process_captcha_tiles (Ext := Sim.backend) Sim.service [2; 0; 0] tiles "47" in
  tiles <> []
  /\ get response "success" = PyBool false
  /\ get response "matching_indices" = PyIntList [].
Proof.
  cbv zeta. split; [discriminate|]. split; vm_compute; reflexivity.
Qed.

(** The fallback sample comes in the order it was drawn: here [2, 0, 1]. *)
Lemma C3_counterexample :
  let tiles := map Sim.tile ["12"; "99"; "31"] in
  let response :=
    process_captcha_tiles (Ext := Sim.backend) Sim.service [2; 0; 0] tiles "47" in
  get response "matching_indices" = PyIntList [2; 0; 1]
  /\ ~ StronglySorted lt [2; 0; 1].
Proof.
  cbv zeta. split; [vm_compute; reflexivity|].
  intros H. inversion H as [|? ? _ Hall]; subst.
  inversion Hall as [|? ? Hlt _]; subst. lia.
Qed.

(** One corrupt tile among three: all three are counted as processed. *)
Lemma C4_counterexample :
  let tiles := map Sim.tile ["47"; "corrupt"; "12"] in
  let response :=
    process_captcha_tiles (Ext := Sim.backend) Sim.service [] tiles "47" in
  map (fun p => raised (decode_image (Ext := Sim.backend) (PyStr p)))
      ["47"; "corrupt"; "12"] = [false; true; false]
  /\ get response "total_tiles" = PyInt 3
  /\ get response "processed_tiles" = PyInt 3
  /\ get response "processed_tiles" <> PyInt (3 - 1).
Proof.
  cbv zeta. repeat split; try (vm_compute; reflexivity).
  vm_compute. discriminate.
Qed.

Lemma C4_witness :
  tile_processed (Sim.tile "corrupt") = true
  /\ raised (decode_image (Ext := Sim.backend)
               (get (Sim.tile "corrupt") "base64Image")) = true
  /\ (let pre := [Sim.tile "47"] in
      let post := [Sim.tile "12"] in
      let response :=
        process_captcha_tiles (Ext := Sim.backend) Sim.service []
                              (pre ++ Sim.tile "corrupt" :: post) "47" in
      get response "processed_tiles"
      = PyInt (S (processed_count (Ext := Sim.backend) Sim.service "47" (pre ++ post)))
      /\ get response "processed_tiles"
         = PyInt (List.length (filter tile_processed
                                      (pre ++ Sim.tile "corrupt" :: post)))
      /\ get response "total_tiles" = PyInt (S (List.length (pre ++ post)))
      /\ recognised_indices (Ext := Sim.backend) Sim.service "47"
                            (pre ++ Sim.tile "corrupt" :: post)
         = map (shift_index (List.length pre))
               (recognised_indices (Ext := Sim.backend) Sim.service "47"
                                   (pre ++ post))).
Proof.
  split; [reflexivity|]. split; [reflexivity|].
  exact (C4_corrupt_tile_is_counted (Ext := Sim.backend) Sim.service "47" []
           [Sim.tile "47"] [Sim.tile "12"] (Sim.tile "corrupt")
           eq_refl eq_refl).
Defined.

Lemma sim_recognizer_output (text : string) :
  String.eqb text "corrupt" = false ->
  PyStr.findall_digits text = [text] ->
  (2 <=? String.length text) = true ->
  recognizer_output (Ext := Sim.backend) Sim.service text text.
Proof.
  intros Hok Hdigits Hlen.
  exists text, [text; text; text; text; text].
  assert (Hrec : recognize (Ext := Sim.backend) Sim.service text
                 = [(text, 0.9%float)]).
  { unfold recognize, extract_numbers_easyocr, easyocr_region. simpl.
    rewrite Hdigits. simpl. simpl in Hlen. rewrite Hlen. reflexivity. }
  split; [simpl; now rewrite Hok|]. split; [reflexivity|].
  unfold pooled_detections. cbn [flat_map]. rewrite Hrec. simpl.
  split; [discriminate | repeat constructor].
Qed.

Lemma C5_witness :
  let self := init (Ext := Sim.backend) true in
  Forall (fun p => p <> "") ["47"; "74"; "12"; "47"; "99"]
  /\ recognizer_output (Ext := Sim.backend) self "47" "47"
  /\ recognizer_output (Ext := Sim.backend) self "74" "74"
  /\ recognizer_output (Ext := Sim.backend) self "12" "12"
  /\ recognizer_output (Ext := Sim.backend) self "99" "99"
  /\ (let tiles := map payload_tile ["47"; "74"; "12"; "47"; "99"] in
      get (process_captcha_tiles (Ext := Sim.backend) self [] tiles "47")
          "matching_indices" = PyIntList [0; 1; 3]
      /\ fallback_fires (Ext := Sim.backend) self tiles "47" = false
      /\ _text_matches_target "74" "47" = true
      /\ String.eqb (PyStr.reversed "74") "47" = true).
Proof.
  assert (Hne : Forall (fun p : string => p <> "") ["47"; "74"; "12"; "47"; "99"])
    by (repeat constructor; discriminate).
  assert (H47 : recognizer_output (Ext := Sim.backend) Sim.service "47" "47")
    by (apply sim_recognizer_output; reflexivity).
  assert (H74 : recognizer_output (Ext := Sim.backend) Sim.service "74" "74")
    by (apply sim_recognizer_output; reflexivity).
  assert (H12 : recognizer_output (Ext := Sim.backend) Sim.service "12" "12")
    by (apply sim_recognizer_output; reflexivity).
  assert (H99 : recognizer_output (Ext := Sim.backend) Sim.service "99" "99")
    by (apply sim_recognizer_output; reflexivity).
  cbv zeta. repeat (split; [assumption|]).
  exact (C5_scenario_target_47 (Ext := Sim.backend) true []
           "47" "74" "12" "47" "99" Hne H47 H74 H12 H47 H99).
Defined.

Lemma C6_witness :
  let self := init (Ext := Sim.backend) true in
  _fuzzy_match self "1234" "1235" = false
  /\ _fuzzy_match self "1234" "1234" = true
  /\ _fuzzy_match self "123456" "123456" = true
  /\ _fuzzy_match self "123" "1234" = false
  /\ consolidate_results self [("47", 0.9%float); ("48", 0.95%float)] "47"
     = exact_matches [("47", 0.9%float); ("48", 0.95%float)] "47"
  /\ consolidate_results self [("12345", 0.9%float); ("99999", 0.95%float)] "12346"
     = fuzzy_matches self [("12345", 0.9%float); ("99999", 0.95%float)] "12346".
Proof.
  cbv zeta.
  destruct (C6_fuzzy_boundary (Ext := Sim.backend) true "1234" "1235")
    as (Hone & _).
  destruct (C6_fuzzy_boundary (Ext := Sim.backend) true "1234" "1234")
    as (_ & Hzero4 & _).
  destruct (C6_fuzzy_boundary (Ext := Sim.backend) true "123456" "123456")
    as (_ & _ & Hzero & _).
  destruct (C6_fuzzy_boundary (Ext := Sim.backend) true "123" "1234")
    as (_ & _ & _ & Hlen & _).
  destruct (C6_fuzzy_boundary (Ext := Sim.backend) true "47" "47")
    as (_ & _ & _ & _ & Hfirst & _).
  destruct (C6_fuzzy_boundary (Ext := Sim.backend) true "12346" "12346")
    as (_ & _ & _ & _ & _ & Hsecond).
  split; [apply Hone; reflexivity|].
  split; [apply Hzero4; reflexivity|].
  split; [apply Hzero; [discriminate | reflexivity | reflexivity | reflexivity]|].
  split; [apply Hlen; discriminate|].
  split; [apply Hfirst; vm_compute; discriminate|].
  apply (Hsecond [("12345", 0.9%float); ("99999", 0.95%float)]).
  vm_compute. reflexivity.
Defined.

(** Tesseract reads the single digit 7 with confidence 96 under each of the
    four configurations: the detection is returned four times although it
    has one character, and the regular-expression path adds nothing. *)
Lemma tesseract_single_digit_evaluation :
  extract_numbers_tesseract (Ext := Sim.tesseract_backend)
    (init (Ext := Sim.tesseract_backend) false) "7"
  = [("7", PrimFloat.div 96 100); ("7", PrimFloat.div 96 100);
     ("7", PrimFloat.div 96 100); ("7", PrimFloat.div 96 100)].
Proof. vm_compute. reflexivity. Qed.

(** The contrast enhancement raises: preprocess_image raises too and returns
    no list; enhanced_ocr_process reports the tile as failed. *)
Lemma C8_counterexample :
  preprocess_image (Ext := Sim.contrast_fails) "tile" = Raise "image has wrong mode"
  /\ enhanced_ocr_process (Ext := Sim.contrast_fails)
       (init (Ext := Sim.contrast_fails) true) (PyStr "tile") "47"
     = [("success", PyBool false); ("error", PyStr "image has wrong mode")].
Proof. split; reflexivity. Qed.

Lemma C9_witness :
  let r1 := [("47", 0.9%float); ("12", 0.6%float)] in
  let r2 := [("12", 0.99%float); ("47", 0.51%float); ("12", 0.7%float)] in
  same_texts r1 r2
  /\ (forall x, In x (consolidate_results Sim.service r1 "47")
                <-> In x (consolidate_results Sim.service r2 "47"))
  /\ (consolidate_results Sim.service r1 "47" = []
      <-> consolidate_results Sim.service r2 "47" = []).
Proof.
  cbv zeta.
  assert (H : same_texts [("47", 0.9%float); ("12", 0.6%float)]
                [("12", 0.99%float); ("47", 0.51%float); ("12", 0.7%float)])
    by (intros t; simpl; intuition).
  split; [exact H|].
  exact (C9_matches_independent_of_confidence Sim.service "47" _ _ H).
Defined.

Lemma C10_witness :
  tile_processed Sim.bare_tile = false
  /\ (let pre := [Sim.tile "47"] in
      let post := [Sim.tile "12"] in
      let batch := pre ++ Sim.bare_tile :: post in
      let response :=
        process_captcha_tiles (Ext := Sim.backend) Sim.service [] batch "47" in
      let response' :=
        process_captcha_tiles (Ext := Sim.backend) Sim.service [] (pre ++ post) "47" in
      get response "processed_tiles" = get response' "processed_tiles"
      /\ ~ In (List.length pre)
              (recognised_indices (Ext := Sim.backend) Sim.service "47" batch)
      /\ recognised_indices (Ext := Sim.backend) Sim.service "47" batch
         = map (shift_index (List.length pre))
               (recognised_indices (Ext := Sim.backend) Sim.service "47" (pre ++ post))
      /\ fallback_fires (Ext := Sim.backend) Sim.service batch "47"
         = fallback_fires (Ext := Sim.backend) Sim.service (pre ++ post) "47"
      /\ get response "total_tiles" = PyInt (S (List.length (pre ++ post)))
      /\ get response "matching_indices"
         = PyIntList
             (if fallback_fires (Ext := Sim.backend) Sim.service batch "47"
              then PyRandom.sample_from []
                     (PyRandom.range (S (List.length (pre ++ post))))
                     (Nat.min 3 (S (List.length (pre ++ post))))
              else recognised_indices (Ext := Sim.backend) Sim.service "47" batch)).
Proof.
  split; [reflexivity|].
  exact (C10_tile_without_payload_is_skipped (Ext := Sim.backend) Sim.service
           "47" [] [Sim.tile "47"] [Sim.tile "12"] Sim.bare_tile eq_refl).
Defined.

(* ================================================================= *)
(** ** Further properties of matching *)

Module MatchFacts.

Lemma reversed_involutive (s : string) : PyStr.reversed (PyStr.reversed s) = s.
Proof.
  unfold PyStr.reversed.
  now rewrite list_ascii_of_string_of_list_ascii, rev_involutive,
    string_of_list_ascii_of_string.
Qed.

Lemma reversed_eqb_swap (s t : string) :
  String.eqb (PyStr.reversed s) t = String.eqb (PyStr.reversed t) s.
Proof.
  destruct (String.eqb_spec (PyStr.reversed s) t) as [<-|Hne].
  - rewrite reversed_involutive. symmetry. apply String.eqb_refl.
  - symmetry. apply String.eqb_neq. intros Heq. apply Hne.
    rewrite <- Heq. apply reversed_involutive.
Qed.

Lemma text_matches_as_orb (text target : string) :
  _text_matches_target text target
  = String.eqb text target
    || (PyStr.contains target text || PyStr.contains text target)
    || String.eqb (PyStr.reversed text) target.
Proof.
  unfold _text_matches_target.
  destruct (String.eqb text target); simpl; auto.
  destruct (PyStr.contains target text || PyStr.contains text target); simpl; auto.
  destruct (String.eqb (PyStr.reversed text) target); reflexivity.
Qed.

Lemma contains_empty (s : string) : PyStr.contains "" s = true.
Proof. destruct s; reflexivity. Qed.

Lemma differences_sym (s : string) :
  forall t, PyStr.differences s t = PyStr.differences t s.
Proof.
  induction s as [|c s IH]; intros [|d t]; simpl; auto.
  rewrite IH, (Ascii.eqb_sym c d). reflexivity.
Qed.

Lemma differences_le (s : string) :
  forall t, PyStr.differences s t <= String.length t.
Proof.
  induction s as [|c s IH]; intros [|d t]; simpl; try lia.
  specialize (IH t). destruct (Ascii.eqb c d); lia.
Qed.

Lemma similarity_table_100 : similarity_table 100 = true.
Proof. vm_compute. reflexivity. Qed.

Lemma similarity_agrees_100 (n d : nat) :
  1 <= n <= 100 -> d <= n -> similarity_agrees n d = true.
Proof.
  intros Hn Hd. pose proof similarity_table_100 as Htab.
  unfold similarity_table in Htab. rewrite forallb_forall in Htab.
  specialize (Htab n). rewrite forallb_forall in Htab.
  apply Htab; apply in_seq; lia.
Qed.

End MatchFacts.

Section MatchingExtras.

Context {image array : Type} `{Ext : Externals image array}.

(** X1.  The first-pass rule is symmetric: a text matches a target exactly
    when the target, taken as a text, matches the text. *)
Theorem text_matches_target_symmetric (text target : string) :
  _text_matches_target text target = _text_matches_target target text.
Proof.
  rewrite !MatchFacts.text_matches_as_orb.
  rewrite (String.eqb_sym text target).
  rewrite (orb_comm (PyStr.contains target text)).
  now rewrite (MatchFacts.reversed_eqb_swap text target).
Qed.

(** X2.  The fuzzy rule is symmetric in its two strings. *)
Theorem fuzzy_match_symmetric (self : Service) (text target : string) :
  _fuzzy_match self text target = _fuzzy_match self target text.
Proof.
  unfold _fuzzy_match.
  rewrite (Nat.eqb_sym (String.length target) (String.length text)).
  destruct (Nat.eqb_spec (String.length text) (String.length target)) as [Hlen|];
    [|reflexivity].
  cbn [negb]. now rewrite Hlen, MatchFacts.differences_sym.
Qed.

Lemma fuzzy_match_default_rule (reader_ok : bool) (text target : string) :
  String.length text = String.length target ->
  1 <= String.length target <= 100 ->
  _fuzzy_match (init reader_ok) text target
  = (5 * PyStr.differences text target <=? String.length target).
Proof.
  intros Hlen Hn. unfold _fuzzy_match. rewrite Hlen, Nat.eqb_refl. cbn [negb].
  unfold PyFloat.truediv.
  destruct (Nat.eqb_spec (String.length target) 0) as [H0|_]; [lia|].
  cbn [bind similarity_threshold init].
  pose proof (MatchFacts.similarity_agrees_100 (String.length target)
                (PyStr.differences text target) Hn
                (MatchFacts.differences_le text target)) as Hag.
  unfold similarity_agrees in Hag. now apply Bool.eqb_prop in Hag.
Qed.

(** X3.  At the default threshold and for two strings of one length between
    1 and 100, the fuzzy rule holds exactly when at most one character in
    five differs: the binary64 test [1 - d/n >= 0.8] agrees with
    [5 * d <= n], the bound included. *)
Theorem fuzzy_match_one_in_five (reader_ok : bool) (text target : string) :
  String.length text = String.length target ->
  1 <= String.length target <= 100 ->
  _fuzzy_match (init reader_ok) text target = true
  <-> 5 * PyStr.differences text target <= String.length target.
Proof.
  intros Hlen Hn. rewrite (fuzzy_match_default_rule reader_ok text target Hlen Hn).
  apply Nat.leb_le.
Qed.

(** X4.  For a target of at most four characters the fuzzy pass adds
    nothing at the default threshold: consolidate_results returns the
    first-pass matches. *)
Theorem fuzzy_pass_idle_for_short_targets (reader_ok : bool)
    (all_results : list detection) (target : string) :
  String.length target <= 4 ->
  consolidate_results (init reader_ok) all_results target
  = exact_matches all_results target.
Proof.
  intros Hshort. unfold consolidate_results.
  destruct all_results as [|r rest] eqn:Hr; [reflexivity|]. rewrite <- Hr.
  destruct (exact_matches all_results target) as [|m ms] eqn:Hex; [|reflexivity].
  destruct (fuzzy_matches (init reader_ok) all_results target) as [|x l] eqn:Hf;
    [reflexivity|exfalso].
  assert (Hin : In x (fuzzy_matches (init reader_ok) all_results target))
    by (rewrite Hf; now left).
  apply fuzzy_matches_In in Hin. destruct Hin as [Hin Hfz].
  pose proof (proj1 (exact_matches_nil all_results target) Hex x Hin) as Hno.
  assert (Hlen : String.length x = String.length target).
  { unfold _fuzzy_match in Hfz.
    destruct (Nat.eqb_spec (String.length x) (String.length target)); auto.
    discriminate. }
  destruct (Nat.eq_dec (String.length target) 0) as [H0|H0].
  - rewrite (StrFacts.length_zero target H0) in *.
    rewrite (StrFacts.length_zero x Hlen) in Hno. discriminate.
  - rewrite (fuzzy_match_default_rule reader_ok x target Hlen) in Hfz by lia.
    apply Nat.leb_le in Hfz.
    assert (Hd : PyStr.differences x target = 0) by lia.
    rewrite (StrFacts.differences_zero x target Hlen Hd) in Hno.
    unfold _text_matches_target in Hno. rewrite String.eqb_refl in Hno.
    discriminate.
Qed.

(** X5.  What consolidate_results returns.  When some detected text matches
    by the first-pass rule, the result holds exactly the detected texts that
    do; when none does, it holds exactly the detected texts that match by the
    fuzzy rule. *)
Theorem consolidate_results_characterised (self : Service)
    (all_results : list detection) (target x : string) :
  if existsb (fun d => _text_matches_target (fst d) target) all_results
  then In x (consolidate_results self all_results target)
       <-> In x (map fst all_results) /\ _text_matches_target x target = true
  else In x (consolidate_results self all_results target)
       <-> In x (map fst all_results) /\ _fuzzy_match self x target = true.
Proof.
  destruct (existsb (fun d => _text_matches_target (fst d) target) all_results)
    eqn:Hsome; rewrite consolidate_results_In.
  - apply existsb_exists in Hsome. destruct Hsome as ([y c] & Hy & Hmatch).
    cbn [fst] in Hmatch.
    split; [|tauto]. intros [Hin [Hx|[Hnone _]]]; [tauto|].
    rewrite (Hnone y) in Hmatch; [discriminate|].
    apply in_map_iff. now exists (y, c).
  - assert (Hnone : forall y, In y (map fst all_results) ->
                      _text_matches_target y target = false).
    { intros y Hy. apply in_map_iff in Hy. destruct Hy as ([y' c] & <- & Hin).
      destruct (_text_matches_target (fst (y', c)) target) eqn:E; auto.
      assert (existsb (fun d => _text_matches_target (fst d) target) all_results
              = true) by (apply existsb_exists; eauto).
      congruence. }
    split; [|tauto]. intros [Hin [Hx|[_ Hf]]]; [|tauto].
    rewrite (Hnone x Hin) in Hx. discriminate.
Qed.

(** Keeping some of the detections keeps their texts distinct. *)
Lemma kept_texts_distinct (keep : detection -> bool) (results : list detection) :
  NoDup (map fst results) -> NoDup (map fst (filter keep results)).
Proof.
  intros Hdistinct. induction results as [|[text c] results IH]; [constructor|].
  cbn [map fst] in Hdistinct. apply NoDup_cons_iff in Hdistinct.
  destruct Hdistinct as [Hfresh Hdistinct]. cbn [filter].
  destruct (keep (text, c)); [|now apply IH].
  cbn [map fst]. apply NoDup_cons; [|now apply IH].
  intros Hin. apply Hfresh. apply in_map_iff in Hin.
  destruct Hin as (d & Hd & Hkept). apply in_map_iff. exists d.
  split; [exact Hd|]. now apply filter_In in Hkept.
Qed.

Lemma final_results_NoDup (all_results : list detection) :
  NoDup (map fst (final_results all_results)).
Proof.
  eapply Permutation_NoDup.
  - symmetry. apply final_results_perm.
  - apply group_results_NoDup.
Qed.

(** X6.  The list consolidate_results returns has no repeated text, however
    often a text was detected. *)
Theorem consolidate_results_no_duplicates (self : Service)
    (all_results : list detection) (target : string) :
  NoDup (consolidate_results self all_results target).
Proof.
  unfold consolidate_results.
  destruct all_results as [|r rest] eqn:Hr; [constructor|]. rewrite <- Hr.
  assert (Hexact : NoDup (exact_matches all_results target))
    by (apply kept_texts_distinct, final_results_NoDup).
  destruct (exact_matches all_results target); auto.
  apply kept_texts_distinct, final_results_NoDup.
Qed.

(** X7.  With an empty target every detected text matches: whenever there
    is a detection, the result holds exactly the detected texts. *)
Theorem empty_target_matches_everything (self : Service)
    (all_results : list detection) (x : string) :
  In x (consolidate_results self all_results "") <-> In x (map fst all_results).
Proof.
  rewrite consolidate_results_In. split; [tauto|].
  intros Hin. split; auto. left.
  rewrite MatchFacts.text_matches_as_orb, MatchFacts.contains_empty.
  now rewrite orb_true_r.
Qed.

End MatchingExtras.

(* ================================================================= *)
(** ** Further properties of the recognizers and of one tile *)

Section RecognizerExtras.

Context {image array : Type} `{Ext : Externals image array}.

(** X8.  Every detection of extract_numbers_easyocr is a string of at least
    two digits whose confidence, the one the engine gave its region, is above
    the threshold; without a reader, or when readtext raises, there is no
    detection. *)
Theorem easyocr_detections (self : Service) (img : image) :
  Forall (fun d =>
            PyStr.isdigit (fst d) = true
            /\ 2 <= String.length (fst d)
            /\ PyFloat.gt (snd d) (confidence_threshold self) = true)
         (extract_numbers_easyocr self img)
  /\ (if easyocr_reader self && negb (raised (readtext img))
      then True else extract_numbers_easyocr self img = []).
Proof.
  unfold extract_numbers_easyocr.
  destruct (easyocr_reader self); simpl; [|split; [constructor | reflexivity]].
  destruct (readtext img) as [regions|]; simpl; [|split; [constructor | reflexivity]].
  split; [|exact I].
  apply Forall_forall. intros [num c] Hin. apply in_flat_map in Hin.
  destruct Hin as ([text confidence] & _ & Hin). unfold easyocr_region in Hin.
  apply in_map_iff in Hin. destruct Hin as (n & Heq & Hin).
  inversion Heq; subst. apply filter_In in Hin. destruct Hin as [Hin Hkeep].
  apply andb_true_iff in Hkeep. destruct Hkeep as [Hlen Hconf]. simpl.
  split; [eapply findall_digits_isdigit; eauto|].
  split; [now apply Nat.leb_le | exact Hconf].
Qed.

Lemma tesseract_data_loop_app (self : Service) (texts : list string)
    (conf : list float) :
  forall i results,
    tesseract_data_loop self i texts conf results
    = (results ++ fst (tesseract_data_loop self i texts conf []),
       snd (tesseract_data_loop self i texts conf [])).
Proof.
  induction texts as [|text texts IH]; intros i results; simpl.
  - now rewrite app_nil_r.
  - destruct (negb (String.eqb (PyStr.strip text) "")
              && PyStr.isdigit (PyStr.strip text)); [|apply IH].
    destruct (nth_error conf i) as [c|]; simpl; [|now rewrite app_nil_r].
    destruct (PyFloat.gt (PrimFloat.div c 100) (confidence_threshold self)).
    + rewrite (IH (S i) (results ++ [_])), (IH (S i) [_]). simpl.
      now rewrite <- app_assoc.
    + apply IH.
Qed.

Lemma tesseract_config_app (self : Service) (img : image)
    (results : list detection) (config : string) :
  tesseract_config self img results config
  = results ++ tesseract_config self img [] config.
Proof.
  unfold tesseract_config.
  destruct (image_to_data img config) as [data|]; [|now rewrite app_nil_r].
  rewrite tesseract_data_loop_app.
  destruct (tesseract_data_loop self 0 (td_text data) (td_conf data) [])
    as [added loop_raised]. simpl.
  destruct loop_raised; auto.
  destruct (image_to_string img config); auto. now rewrite app_assoc.
Qed.

(** X9.  The configurations of extract_numbers_tesseract contribute
    independently: the result is the concatenation, in the order of the
    configurations, of what each one yields on its own, so a configuration
    that raises loses neither the detections of the earlier ones nor those
    it had appended itself. *)
Theorem tesseract_configs_accumulate (self : Service) (img : image) :
  extract_numbers_tesseract self img
  = if TESSERACT_AVAILABLE
    then flat_map (tesseract_config self img []) tesseract_configs
    else [].
Proof.
  unfold extract_numbers_tesseract. destruct TESSERACT_AVAILABLE; [|reflexivity].
  cbn [negb].
  assert (H : forall configs results,
             fold_left (tesseract_config self img) configs results
             = results ++ flat_map (tesseract_config self img []) configs).
  { induction configs as [|config configs IH]; intros results; simpl.
    - now rewrite app_nil_r.
    - rewrite IH, tesseract_config_app. now rewrite <- app_assoc. }
  apply (H tesseract_configs []).
Qed.

(** X10.  In every result of enhanced_ocr_process, also the two error
    results, the success entry is a boolean that is true exactly when the
    matches entry is a non-empty list; the second half of the test
    [result.get('success') and result.get('matches')] never decides. *)
Theorem ocr_success_iff_matches (self : Service) (base64_image : value)
    (target : string) :
  let result := enhanced_ocr_process self base64_image target in
  get result "success" = PyBool (truthy (get result "matches"))
  /\ truthy (get result "success") && truthy (get result "matches")
     = truthy (get result "success")
  /\ (get result "error" = PyNone
      <-> exists img variants,
            decode_image base64_image = Ok img
            /\ preprocess_image img = Ok variants).
Proof.
  cbv zeta. unfold enhanced_ocr_process.
  destruct (decode_image base64_image) as [img|msg] eqn:Hdec.
  - destruct (preprocess_image img) as [variants|msg'] eqn:Hpre.
    + cbn [get String.eqb Ascii.eqb Bool.eqb truthy].
      split; [|split].
      * destruct (consolidate_results self (pooled_detections self variants) target);
          reflexivity.
      * destruct (consolidate_results self (pooled_detections self variants) target);
          reflexivity.
      * split; [intros _; now exists img, variants | reflexivity].
    + cbn [get String.eqb Ascii.eqb Bool.eqb truthy].
      split; [reflexivity|]. split; [reflexivity|].
      split; [discriminate|].
      intros (i & v & Hi & Hv). inversion Hi; subst. congruence.
  - cbn [get String.eqb Ascii.eqb Bool.eqb truthy].
    split; [reflexivity|]. split; [reflexivity|].
    split; [discriminate|].
    intros (i & v & Hi & _). discriminate.
Qed.

End RecognizerExtras.

(* ================================================================= *)
(** ** The image_to_data path of the Tesseract recognizer *)

Section TesseractDataPath.

Context {image array : Type} `{Ext : Externals image array}.

Lemma isdigit_nonempty (s : string) :
  PyStr.isdigit s = true -> String.eqb s "" = false.
Proof.
  unfold PyStr.isdigit. destruct s; [discriminate | reflexivity].
Qed.

(** With a confidence for every token the loop runs to its end, and every
    digit token whose confidence passes the threshold is in the results. *)
Lemma tesseract_data_loop_keeps (self : Service) (conf : list float)
    (texts : list string) :
  forall start results k token c,
    start + List.length texts <= List.length conf ->
    nth_error texts k = Some token ->
    nth_error conf (start + k) = Some c ->
    PyStr.isdigit (PyStr.strip token) = true ->
    PyFloat.gt (PrimFloat.div c 100) (confidence_threshold self) = true ->
    In (PyStr.strip token, PrimFloat.div c 100)
       (fst (tesseract_data_loop self start texts conf results))
    /\ snd (tesseract_data_loop self start texts conf results) = false.
Proof.
  induction texts as [|text texts IH];
    intros start results k token c Hlen Hk Hc Hdigit Hconf.
  - destruct k; discriminate.
  - cbn [List.length] in Hlen. cbn [tesseract_data_loop].
    destruct k as [|k].
    + cbn [nth_error] in Hk. inversion Hk; subst text. clear Hk.
      rewrite Nat.add_0_r in Hc.
      rewrite (isdigit_nonempty _ Hdigit), Hdigit, Hc. cbn [negb andb].
      rewrite Hconf, tesseract_data_loop_app. cbn [fst snd]. split.
      * apply in_or_app. left. apply in_or_app. right. now left.
      * clear IH Hc Hconf Hdigit. revert start Hlen.
        induction texts as [|t texts IHt]; intros start Hlen; [reflexivity|].
        cbn [List.length] in Hlen. cbn [tesseract_data_loop].
        destruct (negb (String.eqb (PyStr.strip t) "")
                  && PyStr.isdigit (PyStr.strip t));
          [|apply (IHt (S start)); lia].
        destruct (nth_error conf (S start)) as [c'|] eqn:Hnth.
        -- rewrite tesseract_data_loop_app. cbn [snd].
           apply (IHt (S start)); lia.
        -- apply nth_error_None in Hnth. lia.
    + cbn [nth_error] in Hk.
      assert (Hnext : forall results',
                 In (PyStr.strip token, PrimFloat.div c 100)
                    (fst (tesseract_data_loop self (S start) texts conf results'))
                 /\ snd (tesseract_data_loop self (S start) texts conf results')
                    = false).
      { intros results'. apply (IH (S start) results' k token c); auto; [lia|].
        now replace (S start + k) with (start + S k) by lia. }
      destruct (negb (String.eqb (PyStr.strip text) "")
                && PyStr.isdigit (PyStr.strip text)); [|apply Hnext].
      destruct (nth_error conf start) as [c'|] eqn:Hnth; [apply Hnext|].
      apply nth_error_None in Hnth. lia.
Qed.

Lemma tesseract_fold_app (self : Service) (img : image) (configs : list string) :
  forall results,
    fold_left (tesseract_config self img) configs results
    = results ++ flat_map (tesseract_config self img []) configs.
Proof.
  induction configs as [|config configs IH]; intros results; simpl.
  - now rewrite app_nil_r.
  - rewrite IH, tesseract_config_app. now rewrite <- app_assoc.
Qed.

(** C7 (the code departs from the claim).  The image_to_data path of
    extract_numbers_tesseract has no length test: for each configuration
    whose image_to_data call returns, every token that is a digit string
    after strip and whose confidence exceeds the threshold is returned,
    whatever its length; one-digit strings included. *)
Theorem C7_data_path_keeps_any_length (self : Service) (img : image)
    (config : string) (data : tess_data) (i : nat) (token : string) (c : float) :
  TESSERACT_AVAILABLE = true ->
  In config tesseract_configs ->
  image_to_data img config = Ok data ->
  List.length (td_text data) <= List.length (td_conf data) ->
  nth_error (td_text data) i = Some token ->
  nth_error (td_conf data) i = Some c ->
  PyStr.isdigit (PyStr.strip token) = true ->
  PyFloat.gt (PrimFloat.div c 100) (confidence_threshold self) = true ->
  In (PyStr.strip token, PrimFloat.div c 100) (extract_numbers_tesseract self img).
Proof.
  intros Havail Hconfig Hdata Hlen Htoken Hc Hdigit Hconf.
  unfold extract_numbers_tesseract. rewrite Havail. cbn [negb].
  rewrite tesseract_fold_app. cbn [app]. apply in_flat_map.
  exists config. split; [exact Hconfig|].
  unfold tesseract_config. rewrite Hdata.
  destruct (tesseract_data_loop_keeps self (td_conf data) (td_text data)
              0 [] i token c Hlen Htoken Hc Hdigit Hconf) as [Hin Hraise].
  destruct (tesseract_data_loop self 0 (td_text data) (td_conf data) [])
    as [results1 loop_raised]. cbn [fst snd] in Hin, Hraise. subst loop_raised.
  destruct (image_to_string img config); [apply in_or_app; now left | exact Hin].
Qed.

End TesseractDataPath.

(* ================================================================= *)
(** ** Further properties of the batch *)

Section BatchExtras.

Context {image array : Type} `{Ext : Externals image array}.
Variable self : Service.
Variable target : string.

Lemma matched_from_In (tiles : list dict) :
  forall idx i,
    In i (matched_from self target idx tiles)
    <-> idx <= i
        /\ exists tile, nth_error tiles (i - idx) = Some tile
                        /\ tile_matches self target tile = true.
Proof.
  induction tiles as [|tile tiles IH]; intros idx i; simpl.
  - split; [contradiction|]. intros (_ & t & Hnth & _).
    destruct (i - idx); discriminate.
  - rewrite in_app_iff, IH. split.
    + intros [Hhere|(Hle & t & Hnth & Hm)].
      * destruct (tile_matches self target tile) eqn:Hm; [|contradiction].
        destruct Hhere as [<-|[]]. split; [lia|].
        exists tile. now rewrite Nat.sub_diag.
      * split; [lia|]. exists t. split; auto.
        replace (i - idx) with (S (i - S idx)) by lia. exact Hnth.
    + intros (Hle & t & Hnth & Hm).
      destruct (Nat.eq_dec i idx) as [->|Hne].
      * left. rewrite Nat.sub_diag in Hnth. simpl in Hnth.
        inversion Hnth; subst. rewrite Hm. now left.
      * right. split; [lia|]. exists t. split; auto.
        replace (i - idx) with (S (i - S idx)) in Hnth by lia. exact Hnth.
Qed.

(** X11.  The tiles are judged one by one: an index is among the recognised
    indices exactly when the batch has a tile at that position and that tile,
    taken alone, passes the test of the loop. *)
Theorem recognised_index_iff (tiles : list dict) (i : nat) :
  In i (recognised_indices self target tiles)
  <-> exists tile, nth_error tiles i = Some tile
                   /\ tile_matches self target tile = true.
Proof.
  rewrite recognised_indices_eq, matched_from_In, Nat.sub_0_r.
  split; [tauto | intros H; split; [lia | exact H]].
Qed.

(** X12.  A tile that decodes and on which some recognizer reads exactly the
    target is selected: its index is in matching_indices, success is true
    and the fallback does not run. *)
Theorem exact_detection_selects_tile (draws : list nat) (tiles : list dict)
    (i : nat) (tile : dict) (payload : string) (img : image)
    (variants : list image) :
  nth_error tiles i = Some tile ->
  get tile "base64Image" = PyStr payload ->
  payload <> "" ->
  open_image payload = Ok img ->
  preprocess_image img = Ok variants ->
  In target (map fst (pooled_detections self variants)) ->
  let response := process_captcha_tiles self draws tiles target in
  (exists indices,
     get response "matching_indices" = PyIntList indices /\ In i indices)
  /\ get response "success" = PyBool true
  /\ fallback_fires self tiles target = false.
Proof.
  intros Hnth Hget Hne Hopen Hpre Hdet. cbv zeta.
  assert (Hmatch : tile_matches self target tile = true).
  { unfold tile_matches, tile_processed. rewrite Hget.
    cbn [truthy]. destruct (String.eqb_spec payload "") as [|_]; [contradiction|].
    unfold enhanced_ocr_process, decode_image. rewrite Hopen, Hpre.
    cbn [get String.eqb Ascii.eqb Bool.eqb truthy negb andb].
    assert (Hin : In target (consolidate_results self
                               (pooled_detections self variants) target)).
    { apply consolidate_results_In. split; auto. left.
      unfold _text_matches_target. now rewrite String.eqb_refl. }
    destruct (consolidate_results self (pooled_detections self variants) target);
      [contradiction | reflexivity]. }
  assert (Hrec : In i (recognised_indices self target tiles)).
  { rewrite recognised_indices_eq. apply matched_from_In.
    split; [lia|]. exists tile. now rewrite Nat.sub_0_r. }
  assert (Hfb : fallback_fires self tiles target = false).
  { rewrite fallback_fires_eq.
    destruct (recognised_indices self target tiles); [contradiction | reflexivity]. }
  rewrite process_captcha_tiles_eq. unfold selection. rewrite Hfb.
  cbn [get String.eqb Ascii.eqb Bool.eqb].
  split; [eauto|]. split; [|reflexivity].
  destruct (recognised_indices self target tiles); [contradiction | reflexivity].
Qed.

(** X13.  The sizes of the response: processed_tiles never exceeds
    total_tiles, matching_indices never has more entries than there are
    tiles, and when the fallback runs it has exactly min(3, total_tiles)
    entries. *)
Theorem response_sizes (draws : list nat) (tiles : list dict) :
  let response := process_captcha_tiles self draws tiles target in
  exists indices count,
    get response "matching_indices" = PyIntList indices
    /\ get response "processed_tiles" = PyInt count
    /\ count <= List.length tiles
    /\ List.length indices <= List.length tiles
    /\ (fallback_fires self tiles target = false
        \/ List.length indices = Nat.min 3 (List.length tiles)).
Proof.
  cbv zeta. rewrite process_captcha_tiles_eq.
  exists (selection self target draws tiles), (processed_count self target tiles).
  cbn [get String.eqb Ascii.eqb Bool.eqb].
  split; [reflexivity|]. split; [reflexivity|].
  split; [rewrite processed_count_eq; apply processed_of_le|].
  destruct (fallback_fires self tiles target) eqn:Hf.
  - destruct (selection_fallback_length self target draws tiles Hf) as [Hlen _].
    split; [lia | now right].
  - split; [|now left]. unfold selection. rewrite Hf, recognised_indices_eq.
    pose proof (matched_from_sorted self target tiles 0) as Hsorted.
    assert (Hbound : forall l, StronglySorted lt l ->
                       forall lo, Forall (fun i => lo <= i) l ->
                       forall hi, Forall (fun i => i < hi) l ->
                       List.length l <= hi - lo).
    { induction 1 as [|a l Hs IH Hall]; intros lo Hlo hi Hhi; simpl; [lia|].
      inversion Hlo; inversion Hhi; subst.
      assert (List.length l <= hi - S a).
      { apply IH; [exact Hall | assumption]. }
      lia. }
    specialize (Hbound _ Hsorted 0).
    rewrite <- (Nat.sub_0_r (List.length tiles)). apply Hbound.
    + apply Forall_forall. intros; lia.
    + apply Forall_forall. intros i Hi. apply matched_from_bounds in Hi. lia.
Qed.

End BatchExtras.

(* ================================================================= *)
(** ** Properties of the tile preparation of the solver *)

Module SolverFacts.

Import Solver.

Lemma list_ascii_of_append (s t : string) :
  list_ascii_of_string (String.append s t)
  = list_ascii_of_string s ++ list_ascii_of_string t.
Proof. induction s as [|c s IH]; simpl; [reflexivity | now rewrite IH]. Qed.

Lemma string_of_list_app (l1 l2 : list ascii) :
  string_of_list_ascii (l1 ++ l2)
  = String.append (string_of_list_ascii l1) (string_of_list_ascii l2).
Proof. induction l1 as [|c l1 IH]; simpl; [reflexivity | now rewrite IH]. Qed.

Lemma prefix_append (p s t : string) :
  String.prefix p s = true -> String.prefix p (String.append s t) = true.
Proof.
  revert s. induction p as [|c p IH]; intros s Hp;
    [destruct (String.append s t); reflexivity|].
  destruct s as [|d s]; simpl in *; [discriminate|].
  destruct (Ascii.ascii_dec c d); [now apply IH | discriminate].
Qed.

(** Splitting a text without separator gives the text itself. *)
Lemma split_from_no_sep (sep : ascii) (s : list ascii) :
  forall cur, ~ In sep s ->
              split_from sep cur s = [string_of_list_ascii (cur ++ s)].
Proof.
  induction s as [|c s IH]; intros cur Hno; simpl.
  - now rewrite app_nil_r.
  - destruct (Ascii.eqb_spec c sep) as [->|Hne]; [elim Hno; now left|].
    rewrite IH, <- app_assoc; [reflexivity|]. intros Hin. apply Hno. now right.
Qed.

Lemma split_from_first_sep (sep : ascii) (s1 s2 : list ascii) :
  forall cur, ~ In sep s1 ->
              split_from sep cur (s1 ++ sep :: s2)
              = string_of_list_ascii (cur ++ s1) :: split_from sep [] s2.
Proof.
  induction s1 as [|c s1 IH]; intros cur Hno; simpl.
  - now rewrite Ascii.eqb_refl, app_nil_r.
  - destruct (Ascii.eqb_spec c sep) as [->|Hne]; [elim Hno; now left|].
    rewrite IH, <- app_assoc; [reflexivity|]. intros Hin. apply Hno. now right.
Qed.

Section Download.

Variable download : string -> option string.

Lemma collect_tiles_app (images : list element) :
  forall idx tiles,
    collect_tiles download idx images tiles
    = tiles ++ collect_tiles download idx images [].
Proof.
  induction images as [|img rest IH]; intros idx tiles; simpl.
  - now rewrite app_nil_r.
  - destruct (tile_for download idx img) as [tile|]; [|apply IH].
    rewrite (IH (S idx) (tiles ++ [tile])), (IH (S idx) [tile]).
    now rewrite <- app_assoc.
Qed.

Lemma tile_for_index (idx : nat) (img : element) (tile : dict) :
  tile_for download idx img = Some tile ->
  get tile "index" = PyInt idx
  /\ keys tile = ["base64Image"; "index"; "src"]
  /\ exists data, get tile "base64Image" = PyStr data.
Proof.
  unfold tile_for. destruct (src_attribute img) as [[src|]|]; try discriminate.
  destruct (String.eqb src ""); [discriminate|].
  destruct (if String.prefix "data:image" src
            then nth_error (split "," src) 1 else download src) as [data|];
    [|discriminate].
  intros H. inversion H; subst. repeat split. now exists data.
Qed.

Lemma collect_tiles_indices (images : list element) :
  forall idx,
    map (fun tile => get tile "index") (collect_tiles download idx images [])
    = map PyInt (kept_positions download idx images).
Proof.
  induction images as [|img rest IH]; intros idx; simpl; [reflexivity|].
  destruct (tile_for download idx img) as [tile|] eqn:Htile; [|apply IH].
  rewrite collect_tiles_app. simpl. rewrite IH.
  destruct (tile_for_index idx img tile Htile) as [-> _]. reflexivity.
Qed.

Lemma kept_positions_bounds (images : list element) :
  forall idx i, In i (kept_positions download idx images) ->
                idx <= i < idx + List.length images.
Proof.
  induction images as [|img rest IH]; intros idx i Hi; simpl in *; [contradiction|].
  destruct (tile_for download idx img).
  - destruct Hi as [<-|Hi]; [lia|]. apply IH in Hi. lia.
  - apply IH in Hi. lia.
Qed.

Lemma kept_positions_sorted (images : list element) :
  forall idx, StronglySorted lt (kept_positions download idx images).
Proof.
  induction images as [|img rest IH]; intros idx; simpl; [constructor|].
  destruct (tile_for download idx img); auto.
  constructor; auto. apply Forall_forall. intros i Hi.
  apply kept_positions_bounds in Hi. lia.
Qed.

Lemma kept_positions_length (images : list element) :
  forall idx,
    List.length (kept_positions download idx images)
    = List.length (collect_tiles download idx images []).
Proof.
  intros idx. rewrite <- (length_map PyInt), <- collect_tiles_indices.
  now rewrite length_map.
Qed.

Lemma kept_positions_nth (images : list element) :
  forall idx i j, nth_error (kept_positions download idx images) i = Some j -> idx + i <= j.
Proof.
  induction images as [|img rest IH]; intros idx i j Hnth; simpl in Hnth.
  - destruct i; discriminate.
  - destruct (tile_for download idx img).
    + destruct i as [|i]; simpl in Hnth.
      * inversion Hnth; lia.
      * apply IH in Hnth. lia.
    + apply IH in Hnth. lia.
Qed.

Lemma kept_positions_full (images : list element) :
  forall idx,
    List.length (kept_positions download idx images) = List.length images ->
    kept_positions download idx images = seq idx (List.length images).
Proof.
  assert (Hle : forall imgs idx,
             List.length (kept_positions download idx imgs) <= List.length imgs).
  { induction imgs as [|img rest IH]; intros idx; simpl; [lia|].
    specialize (IH (S idx)). destruct (tile_for download idx img); simpl; lia. }
  induction images as [|img rest IH]; intros idx Hlen; simpl in *; [reflexivity|].
  destruct (tile_for download idx img).
  - simpl in Hlen. f_equal. apply IH. lia.
  - specialize (Hle rest (S idx)). lia.
Qed.

End Download.

(** What the duplicate removal adds to [unique_images], given the sources
    seen so far. *)
Lemma remove_duplicates_app (all_images : list element) :
  forall seen unique,
    remove_duplicates all_images seen unique
    = unique ++ remove_duplicates all_images seen [].
Proof.
  induction all_images as [|img rest IH]; intros seen unique; simpl.
  - now rewrite app_nil_r.
  - destruct (src_attribute img) as [[src|]|]; try apply IH.
    destruct (negb (String.eqb src "")
              && negb (existsb (String.eqb src) seen)); [|apply IH].
    rewrite (IH (src :: seen) (unique ++ [img])), (IH (src :: seen) [img]).
    now rewrite <- app_assoc.
Qed.

Lemma existsb_eqb_In (src : string) (seen : list string) :
  existsb (String.eqb src) seen = true <-> In src seen.
Proof.
  rewrite existsb_exists. split.
  - intros (x & Hin & Heq). apply String.eqb_eq in Heq. now subst.
  - intros Hin. exists src. split; auto. apply String.eqb_refl.
Qed.

Lemma remove_duplicates_step (img : element) (rest : list element)
    (seen : list string) (unique : list element) :
  remove_duplicates (img :: rest) seen unique
  = match src_of img with
    | Some src =>
        if existsb (String.eqb src) seen
        then remove_duplicates rest seen unique
        else remove_duplicates rest (src :: seen) (unique ++ [img])
    | None => remove_duplicates rest seen unique
    end.
Proof.
  unfold src_of. simpl. destruct (src_attribute img) as [[src|]|]; auto.
  destruct (String.eqb src ""); simpl; auto.
  destruct (existsb (String.eqb src) seen); reflexivity.
Qed.

Lemma remove_duplicates_spec (all_images : list element) :
  forall seen,
    NoDup (map src_of (remove_duplicates all_images seen []))
    /\ (forall img, In img (remove_duplicates all_images seen []) ->
          In img all_images
          /\ exists src, src_of img = Some src /\ ~ In src seen)
    /\ (forall img src, In img all_images -> src_of img = Some src ->
          ~ In src seen ->
          exists img', In img' (remove_duplicates all_images seen [])
                       /\ src_of img' = Some src).
Proof.
  induction all_images as [|img rest IH]; intros seen.
  - simpl. split; [constructor|]. split; [contradiction|]. intros ? ? [].
  - rewrite remove_duplicates_step.
    destruct (src_of img) as [src|] eqn:Hsrc.
    + destruct (existsb (String.eqb src) seen) eqn:Hseen.
      * destruct (IH seen) as (Hnd & Hsound & Hcomplete).
        apply existsb_eqb_In in Hseen.
        split; [exact Hnd|]. split.
        -- intros img0 Hin. destruct (Hsound img0 Hin). split; [now right | auto].
        -- intros img0 src0 [<-|Hin] Hsrc0 Hnew.
           ++ assert (src0 = src) by congruence. subst. contradiction.
           ++ eapply Hcomplete; eauto.
      * assert (Hnew : ~ In src seen).
        { intros Hin. apply existsb_eqb_In in Hin. congruence. }
        rewrite remove_duplicates_app. cbn [app].
        destruct (IH (src :: seen)) as (Hnd & Hsound & Hcomplete).
        split; [|split].
        -- cbn [map]. rewrite Hsrc. constructor; auto. intros Hin.
           apply in_map_iff in Hin. destruct Hin as (img0 & Heq & Hin0).
           destruct (Hsound img0 Hin0) as (_ & src0 & Hsrc0 & Hnot).
           apply Hnot. left. congruence.
        -- intros img0 [<-|Hin].
           ++ split; [now left|]. now exists src.
           ++ destruct (Hsound img0 Hin) as (Hrest & src0 & Hsrc0 & Hnot).
              split; [now right|]. exists src0. split; auto.
              intros Hin0. apply Hnot. now right.
        -- intros img0 src0 Hor Hsrc0 Hnot.
           destruct (String.eqb_spec src0 src) as [->|Hdiff].
           ++ exists img. split; [now left | exact Hsrc].
           ++ assert (Hin0 : In img0 rest).
              { destruct Hor as [<-|Hin0]; auto. congruence. }
              destruct (Hcomplete img0 src0 Hin0 Hsrc0) as (img' & Hin' & Hsrc').
              ** intros [Heq|Hin1]; [congruence | contradiction].
              ** exists img'. split; [now right | exact Hsrc'].
    + destruct (IH seen) as (Hnd & Hsound & Hcomplete).
      split; [exact Hnd|]. split.
      * intros img0 Hin. destruct (Hsound img0 Hin). split; [now right | auto].
      * intros img0 src0 [<-|Hin] Hsrc0 Hnew; [congruence|].
        eapply Hcomplete; eauto.
Qed.

End SolverFacts.

Section SolverExtras.

Import Solver.

Variable download : string -> option string.

(** X14.  After the duplicate removal, [unique_images] holds elements of
    [all_images] whose [src] is a non-empty string, no two with the same
    [src], and every non-empty [src] of [all_images] is the [src] of one of
    them. *)
Theorem unique_images_distinct_sources (all_images : list element) :
  let unique_images := remove_duplicates all_images [] [] in
  NoDup (map src_of unique_images)
  /\ Forall (fun img => In img all_images
                        /\ exists src, src_of img = Some src)
            unique_images
  /\ Forall (fun img =>
               src_of img = None
               \/ In (src_of img) (map src_of unique_images))
            all_images.
Proof.
  cbv zeta.
  destruct (SolverFacts.remove_duplicates_spec all_images [])
    as (Hnd & Hsound & Hcomplete).
  split; [exact Hnd|]. split.
  - apply Forall_forall. intros img Hin.
    destruct (Hsound img Hin) as (Hall & src & Hsrc & _). eauto.
  - apply Forall_forall. intros img Hin.
    destruct (src_of img) as [src|] eqn:Hsrc; [right | now left].
    destruct (Hcomplete img src Hin Hsrc) as (img' & Hin' & Hsrc'); [intros []|].
    rewrite <- Hsrc'. now apply in_map.
Qed.

(** X15.  The tiles sent to the OCR service carry, under 'index', the
    positions of their images in [unique_images]: strictly increasing and
    below the number of images.  The tile at position i carries an index of
    at least i, and the indices are exactly 0, 1, 2, ... when no image was
    skipped. *)
Theorem tile_data_indices (unique_images : list element) :
  let tiles := tile_data download unique_images in
  exists positions,
    map (fun tile => get tile "index") tiles = map PyInt positions
    /\ StronglySorted lt positions
    /\ Forall (fun j => j < List.length unique_images) positions
    /\ Forall2 le (seq 0 (List.length tiles)) positions
    /\ (List.length tiles < List.length unique_images
        \/ positions = seq 0 (List.length unique_images)).
Proof.
  cbv zeta. unfold tile_data.
  exists (kept_positions download 0 unique_images).
  split; [apply SolverFacts.collect_tiles_indices|].
  split; [apply SolverFacts.kept_positions_sorted|].
  split.
  { apply Forall_forall. intros j Hj.
    apply SolverFacts.kept_positions_bounds in Hj. lia. }
  rewrite <- SolverFacts.kept_positions_length. split.
  - assert (H : forall l lo, (forall i j, nth_error l i = Some j -> lo + i <= j) ->
                             Forall2 le (seq lo (List.length l)) l).
    { induction l as [|a l IH]; intros lo Hnth; simpl; constructor.
      - specialize (Hnth 0 a eq_refl). lia.
      - apply IH. intros i j Hij. specialize (Hnth (S i) j Hij). lia. }
    apply H. intros i j Hij.
    apply SolverFacts.kept_positions_nth in Hij. exact Hij.
  - destruct (Nat.eq_dec (List.length (kept_positions download 0 unique_images))
                         (List.length unique_images)) as [Heq|Hne].
    + right. now apply SolverFacts.kept_positions_full.
    + left. pose proof (SolverFacts.kept_positions_sorted download unique_images 0).
      assert (Hle : forall imgs idx,
                 List.length (kept_positions download idx imgs) <= List.length imgs).
      { induction imgs as [|img rest IH]; intros idx; simpl; [lia|].
        specialize (IH (S idx)). destruct (tile_for download idx img); simpl; lia. }
      specialize (Hle unique_images 0). lia.
Qed.

(** X16.  For an inlined image, whose [src] is a data URI with one comma,
    the payload sent to the OCR service is the text after the comma: the
    prefix is removed and nothing is downloaded. *)
Theorem data_uri_payload (idx : nat) (img : element) (head payload : string) :
  src_attribute img = Ok (Some (String.append head (String "," payload))) ->
  String.prefix "data:image" head = true ->
  ~ In ","%char (list_ascii_of_string head) ->
  ~ In ","%char (list_ascii_of_string payload) ->
  tile_for download idx img
  = Some [("base64Image", PyStr payload); ("index", PyInt idx);
          ("src", PyStr (String.append head (String "," payload)))].
Proof.
  intros Hattr Hprefix Hhead Hpayload. unfold tile_for. rewrite Hattr.
  assert (Hnonempty : String.eqb (String.append head (String "," payload)) ""
                      = false).
  { destruct head; [discriminate Hprefix | reflexivity]. }
  rewrite Hnonempty, (SolverFacts.prefix_append _ _ _ Hprefix).
  unfold split. rewrite SolverFacts.list_ascii_of_append. cbn [list_ascii_of_string].
  rewrite (SolverFacts.split_from_first_sep _ _ _ [] Hhead).
  rewrite (SolverFacts.split_from_no_sep _ _ [] Hpayload).
  cbn [nth_error app]. now rewrite string_of_list_ascii_of_string.
Qed.

(** X17.  A data URI without a comma yields no tile: the index error of
    [src.split(',')[1]] ends the iteration, whatever the download would
    give. *)
Theorem data_uri_without_comma_is_skipped (idx : nat) (img : element)
    (src : string) :
  src_attribute img = Ok (Some src) ->
  String.prefix "data:image" src = true ->
  ~ In ","%char (list_ascii_of_string src) ->
  tile_for download idx img = None.
Proof.
  intros Hattr Hprefix Hno. unfold tile_for. rewrite Hattr, Hprefix.
  destruct (String.eqb src ""); [reflexivity|].
  unfold split. rewrite (SolverFacts.split_from_no_sep _ _ [] Hno). reflexivity.
Qed.

End SolverExtras.

Section SolverWithService.

Import Solver.

Context {image array : Type} `{Ext : Externals image array}.

(** X18.  When the OCR service is run on the tiles the solver prepared,
    every index it returns, recognised or drawn by the fallback, passes the
    guard [idx < len(unique_images)] of the click loop: no returned index is
    dropped. *)
Theorem returned_indices_pass_click_guard (self : Service)
    (download : string -> option string) (draws : list nat)
    (unique_images : list element) (target : string) :
  let tiles := tile_data download unique_images in
  let response := process_captcha_tiles self draws tiles target in
  exists indices,
    get response "matching_indices" = PyIntList indices
    /\ clicked unique_images indices = indices.
Proof.
  cbv zeta. rewrite process_captcha_tiles_eq.
  exists (selection self target draws (tile_data download unique_images)).
  split; [reflexivity|].
  assert (Hlen : List.length (tile_data download unique_images)
                 <= List.length unique_images).
  { unfold tile_data. rewrite <- SolverFacts.kept_positions_length.
    generalize 0. induction unique_images as [|img rest IH]; intros idx; simpl; [lia|].
    specialize (IH (S idx)). destruct (tile_for download idx img); simpl; lia. }
  assert (Hbound : Forall (fun i => i < List.length (tile_data download unique_images))
                          (selection self target draws
                                     (tile_data download unique_images))).
  { apply Forall_forall. intros i Hi. unfold selection in Hi.
    destruct (fallback_fires self (tile_data download unique_images) target).
    - apply RandomFacts.sample_from_In in Hi. now apply RandomFacts.range_In in Hi.
    - rewrite recognised_indices_eq in Hi. apply matched_from_bounds in Hi. lia. }
  unfold clicked.
  induction (selection self target draws (tile_data download unique_images))
    as [|i l IH]; simpl; [reflexivity|].
  inversion Hbound as [|? ? Hi Hrest]; subst.
  destruct (Nat.ltb_spec i (List.length unique_images)); [|lia].
  f_equal. now apply IH.
Qed.

End SolverWithService.

Section DigitRuns.

Lemma findall_digits_from_all_digits (s : list ascii) :
  forall run, forallb PyStr.is_digit s = true ->
              PyStr.findall_digits_from run s = PyStr.flush (run ++ s).
Proof.
  induction s as [|c s IH]; intros run Hd; simpl.
  - now rewrite app_nil_r.
  - simpl in Hd. apply andb_true_iff in Hd. destruct Hd as [Hc Hs].
    rewrite Hc, IH, <- app_assoc; auto.
Qed.

(** X19.  On a text made of digits only, the digit-run extraction
    [re.findall(r'\d+', text)] returns the text itself as its single run. *)
Theorem findall_digits_of_digit_string (s : string) :
  PyStr.isdigit s = true -> PyStr.findall_digits s = [s].
Proof.
  unfold PyStr.isdigit, PyStr.findall_digits. intros H.
  apply andb_true_iff in H. destruct H as [Hne Hd].
  rewrite findall_digits_from_all_digits by exact Hd. simpl.
  destruct s as [|c s]; [discriminate|].
  simpl. now rewrite string_of_list_ascii_of_string.
Qed.

End DigitRuns.

(* ================================================================= *)
(** ** Instances of the properties above *)

Lemma fuzzy_match_one_in_five_witness :
  String.length "12345" = String.length "12346"
  /\ 1 <= String.length "12346" <= 100
  /\ (_fuzzy_match (init (Ext := Sim.backend) true) "12345" "12346" = true
      <-> 5 * PyStr.differences "12345" "12346" <= String.length "12346").
Proof.
  assert (Hlen : String.length "12345" = String.length "12346") by reflexivity.
  assert (Hn : 1 <= String.length "12346" <= 100) by (simpl; lia).
  split; [exact Hlen|]. split; [exact Hn|].
  exact (fuzzy_match_one_in_five (Ext := Sim.backend) true "12345" "12346" Hlen Hn).
Defined.

Lemma fuzzy_pass_idle_witness :
  String.length "47" <= 4
  /\ consolidate_results (init (Ext := Sim.backend) true)
       [("48", 0.9%float); ("41", 0.7%float)] "47"
     = exact_matches [("48", 0.9%float); ("41", 0.7%float)] "47".
Proof.
  assert (H : String.length "47" <= 4) by (simpl; lia).
  split; [exact H|].
  exact (fuzzy_pass_idle_for_short_targets (Ext := Sim.backend) true
           [("48", 0.9%float); ("41", 0.7%float)] "47" H).
Defined.

Lemma exact_detection_selects_tile_witness :
  let tiles := [Sim.tile "12"; Sim.tile "47"] in
  let variants := ["47"; "47"; "47"; "47"; "47"] in
  nth_error tiles 1 = Some (Sim.tile "47")
  /\ get (Sim.tile "47") "base64Image" = PyStr "47"
  /\ "47" <> ""
  /\ open_image (Externals := Sim.backend) "47" = Ok "47"
  /\ preprocess_image (Ext := Sim.backend) "47" = Ok variants
  /\ In "47" (map fst (pooled_detections (Ext := Sim.backend) Sim.service variants))
  /\ (let response :=
        process_captcha_tiles (Ext := Sim.backend) Sim.service [] tiles "47" in
      (exists indices,
         get response "matching_indices" = PyIntList indices /\ In 1 indices)
      /\ get response "success" = PyBool true
      /\ fallback_fires (Ext := Sim.backend) Sim.service tiles "47" = false).
Proof.
  cbv zeta.
  assert (Hne : "47" <> "") by discriminate.
  assert (Hin : In "47" (map fst (pooled_detections (Ext := Sim.backend) Sim.service
                                    ["47"; "47"; "47"; "47"; "47"])))
    by (vm_compute; left; reflexivity).
  split; [reflexivity|]. split; [reflexivity|]. split; [exact Hne|].
  split; [reflexivity|]. split; [reflexivity|]. split; [exact Hin|].
  exact (exact_detection_selects_tile (Ext := Sim.backend) Sim.service "47" []
           [Sim.tile "12"; Sim.tile "47"] 1 (Sim.tile "47") "47" "47"
           ["47"; "47"; "47"; "47"; "47"]
           eq_refl eq_refl Hne eq_refl eq_refl Hin).
Defined.

Lemma data_uri_payload_witness :
  let img := {| Solver.src_attribute := Ok (Some "data:image/png;base64,iVBORw0KGgo=") |} in
  Solver.src_attribute img
  = Ok (Some (String.append "data:image/png;base64" (String "," "iVBORw0KGgo=")))
  /\ String.prefix "data:image" "data:image/png;base64" = true
  /\ ~ In ","%char (list_ascii_of_string "data:image/png;base64")
  /\ ~ In ","%char (list_ascii_of_string "iVBORw0KGgo=")
  /\ Solver.tile_for (fun _ => None) 3 img
     = Some [("base64Image", PyStr "iVBORw0KGgo="); ("index", PyInt 3);
             ("src", PyStr (String.append "data:image/png;base64"
                                          (String "," "iVBORw0KGgo=")))].
Proof.
  cbv zeta.
  assert (Hhead : ~ In ","%char (list_ascii_of_string "data:image/png;base64")).
  { simpl. intros H. repeat (destruct H as [H|H]; [discriminate H|]). exact H. }
  assert (Hpayload : ~ In ","%char (list_ascii_of_string "iVBORw0KGgo=")).
  { simpl. intros H. repeat (destruct H as [H|H]; [discriminate H|]). exact H. }
  split; [reflexivity|]. split; [reflexivity|].
  split; [exact Hhead|]. split; [exact Hpayload|].
  exact (data_uri_payload (fun _ => None) 3
           {| Solver.src_attribute := Ok (Some "data:image/png;base64,iVBORw0KGgo=") |}
           "data:image/png;base64" "iVBORw0KGgo=" eq_refl eq_refl Hhead Hpayload).
Defined.

Lemma data_uri_without_comma_witness :
  let img := {| Solver.src_attribute := Ok (Some "data:image/png;base64") |} in
  Solver.src_attribute img = Ok (Some "data:image/png;base64")
  /\ String.prefix "data:image" "data:image/png;base64" = true
  /\ ~ In ","%char (list_ascii_of_string "data:image/png;base64")
  /\ Solver.tile_for (fun src => Some src) 0 img = None.
Proof.
  cbv zeta.
  assert (Hno : ~ In ","%char (list_ascii_of_string "data:image/png;base64")).
  { simpl. intros H. repeat (destruct H as [H|H]; [discriminate H|]). exact H. }
  split; [reflexivity|]. split; [reflexivity|]. split; [exact Hno|].
  exact (data_uri_without_comma_is_skipped (fun src => Some src) 0
           {| Solver.src_attribute := Ok (Some "data:image/png;base64") |}
           "data:image/png;base64" eq_refl eq_refl Hno).
Defined.

Lemma findall_digits_of_digit_string_witness :
  PyStr.isdigit "2047" = true /\ PyStr.findall_digits "2047" = ["2047"].
Proof.
  split; [reflexivity|].
  exact (findall_digits_of_digit_string "2047" eq_refl).
Defined.

Lemma C7_witness :
  let self := init (Ext := Sim.tesseract_backend) false in
  let config := "--psm 8 -c tessedit_char_whitelist=0123456789" in
  let data := {| td_text := ["7"]; td_conf := [96%float] |} in
  TESSERACT_AVAILABLE (Externals := Sim.tesseract_backend) = true
  /\ In config (tesseract_configs)
  /\ image_to_data (Externals := Sim.tesseract_backend) "7" config = Ok data
  /\ List.length (td_text data) <= List.length (td_conf data)
  /\ nth_error (td_text data) 0 = Some "7"
  /\ nth_error (td_conf data) 0 = Some 96%float
  /\ PyStr.isdigit (PyStr.strip "7") = true
  /\ PyFloat.gt (PrimFloat.div 96 100) (confidence_threshold self) = true
  /\ String.length (PyStr.strip "7") = 1
  /\ In (PyStr.strip "7", PrimFloat.div 96 100)
        (extract_numbers_tesseract (Ext := Sim.tesseract_backend) self "7").
Proof.
  cbv zeta.
  assert (Hconfig : In "--psm 8 -c tessedit_char_whitelist=0123456789"
                       tesseract_configs) by (left; reflexivity).
  assert (Hlen : List.length ["7"] <= List.length [96%float]) by (simpl; lia).
  split; [reflexivity|]. split; [exact Hconfig|]. split; [reflexivity|].
  split; [exact Hlen|]. split; [reflexivity|]. split; [reflexivity|].
  split; [reflexivity|]. split; [reflexivity|]. split; [reflexivity|].
  exact (C7_data_path_keeps_any_length (Ext := Sim.tesseract_backend)
           (init (Ext := Sim.tesseract_backend) false) "7"
           "--psm 8 -c tessedit_char_whitelist=0123456789"
           {| td_text := ["7"]; td_conf := [96%float] |} 0 "7" 96%float
           eq_refl Hconfig eq_refl Hlen eq_refl eq_refl eq_refl eq_refl).
Defined.
